(** * device_trust: native signal collection (Android layer)

    A shallow embedding of [device_trust_native.cpp]: the three detectors
    ([analyzeProcMaps], [checkFdForFrida], [checkLibcSymbol]), the JSON
    helpers ([escapeJsonString], [vectorToJsonArray]) and the report built by
    [collectNativeSignals], followed by the properties of the design
    document, each stated on these definitions. *)

From Stdlib Require Import ZArith List Bool Ascii String Lia.
From Stdlib Require Import DecimalString.
From Stdlib Require DecimalFacts DecimalPos DecimalZ.
Import ListNotations.

#[local] Open Scope string_scope.
#[local] Open Scope Z_scope.

(** ** The operations of [std::string] the detectors rely on

    A [size_t] position is a [nat]; [string::npos] is [None]. *)

Module Str.

Definition is_empty (s : string) : bool :=
  match s with EmptyString => true | String _ _ => false end.

(** [s.compare(0, p.size(), p) == 0]: does [p] start [s]? *)
Fixpoint starts_with (p s : string) : bool :=
  match p, s with
  | EmptyString, _ => true
  | String _ _, EmptyString => false
  | String a p', String b s' => Ascii.eqb a b && starts_with p' s'
  end.

(** [s.find(p)]: the first position where [p] occurs in [s]. *)
Fixpoint find (s p : string) : option nat :=
  if starts_with p s then Some O
  else match s with
       | EmptyString => None
       | String _ s' => option_map S (find s' p)
       end.

(** [s.find(c)] for a single character. *)
Fixpoint find_char (s : string) (c : ascii) : option nat :=
  match s with
  | EmptyString => None
  | String a s' => if Ascii.eqb a c then Some O else option_map S (find_char s' c)
  end.

(** [s.rfind(c)]: the last position of [c] in [s]. *)
Fixpoint rfind_char (s : string) (c : ascii) : option nat :=
  match s with
  | EmptyString => None
  | String a s' =>
      match rfind_char s' c with
      | Some i => Some (S i)
      | None => if Ascii.eqb a c then Some O else None
      end
  end.

(** [r != string::npos] *)
Definition found (r : option nat) : bool :=
  match r with Some _ => true | None => false end.

(** [s.substr(pos)], for [pos <= s.size()] (the only way the code calls it). *)
Fixpoint substr_from (s : string) (pos : nat) : string :=
  match pos, s with
  | O, _ => s
  | S _, EmptyString => EmptyString
  | S pos', String _ s' => substr_from s' pos'
  end.

(** [s.substr(0, n)] *)
Fixpoint substr_to (s : string) (n : nat) : string :=
  match n, s with
  | O, _ => EmptyString
  | S _, EmptyString => EmptyString
  | S n', String a s' => String a (substr_to s' n')
  end.

(** [tolower] of the C locale on an [unsigned char]. *)
Definition tolower (c : ascii) : ascii :=
  let n := nat_of_ascii c in
  if (65 <=? n)%nat && (n <=? 90)%nat then ascii_of_nat (n + 32) else c.

(** [for (auto& c : s) c = tolower(c)] *)
Fixpoint lower (s : string) : string :=
  match s with
  | EmptyString => EmptyString
  | String a s' => String (tolower a) (lower s')
  end.

End Str.

(** ** 32-bit [int] counters *)

Definition INT_MAX : Z := 2147483647.

Definition wrap_int (z : Z) : Z := (z + 2147483648) mod 4294967296 - 2147483648.

(** [x++] on an [int]. *)
Definition int_incr (x : Z) : Z := wrap_int (x + 1).

(** ** [/proc/self/maps] as [std::ifstream] delivers it

    [getline] on what is left of the file: it fails once nothing is left;
    otherwise it delivers the characters up to the next newline, which it
    drops, or up to the end of the file. *)

Definition newline : ascii := "010"%char.

Fixpoint read_line (s : string) : string * string :=
  match s with
  | EmptyString => (EmptyString, EmptyString)
  | String c s' =>
      if Ascii.eqb c newline then (EmptyString, s')
      else let '(line, rest) := read_line s' in (String c line, rest)
  end.

Definition getline (s : string) : option (string * string) :=
  match s with
  | EmptyString => None
  | String _ _ => Some (read_line s)
  end.

(** The stream as the sequence of lines [getline] has yet to deliver
    ([lines_of_getline] below relates the two). *)
Fixpoint lines_of (content : string) : list string :=
  match content with
  | EmptyString => []
  | String c rest =>
      if Ascii.eqb c newline then EmptyString :: lines_of rest
      else match lines_of rest with
           | [] => [String c EmptyString]
           | l :: ls => String c l :: ls
           end
  end.

(** ** MapsScanner *)

Record MapsAnalysis : Type := mkMapsAnalysis {
  rwxSegments : Z;
  hasRwx : bool;
  fridaLibLoaded : bool;
  suspiciousModules : list string
}.

(** The default-initialised [MapsAnalysis result;]. *)
Definition MapsAnalysis_default : MapsAnalysis :=
  mkMapsAnalysis 0 false false [].

Definition MAX_LINES : Z := 10000.

Definition keywords : list string :=
  ["frida"; "gum-js"; "gum_js"; "gadget";
   "substrate"; "xposed"; "lsposed"; "edxposed"].

(** Lines 58-61: the writable-executable marker. *)
Definition mark_rwx (line : string) (result : MapsAnalysis) : MapsAnalysis :=
  if Str.found (Str.find line " rwxp") || Str.found (Str.find line " rwx")
  then mkMapsAnalysis (int_incr (rwxSegments result)) true
                      (fridaLibLoaded result) (suspiciousModules result)
  else result.

(** Lines 79-86: the text after the last slash, cut at the first space;
    [None] when the line has no slash. *)
Definition module_of (line : string) : option string :=
  match Str.rfind_char line "/" with
  | None => None
  | Some lastSlash =>
      let module := Str.substr_from line (lastSlash + 1) in
      match Str.find_char module " " with
      | Some space => Some (Str.substr_to module space)
      | None => Some module
      end
  end.

(** Lines 88-98: the uniqueness scan and the guarded [push_back]. *)
Definition push_unique (module : string) (mods : list string) : list string :=
  let exists_ := existsb (fun m => String.eqb m module) mods in
  if negb exists_ && negb (Str.is_empty module) then (mods ++ [module])%list else mods.

(** Lines 74-99: what happens once [keyword] has been found in the line. *)
Definition on_keyword (keyword line : string) (result : MapsAnalysis) : MapsAnalysis :=
  let flag :=
    if Str.found (Str.find keyword "frida") || Str.found (Str.find keyword "gum")
    then true else fridaLibLoaded result in
  let mods :=
    match module_of line with
    | Some module => push_unique module (suspiciousModules result)
    | None => suspiciousModules result
    end in
  mkMapsAnalysis (rwxSegments result) (hasRwx result) flag mods.

(** Lines 72-102: the keyword loop, left at the first keyword that matches. *)
Fixpoint scan_keywords (kws : list string) (line lowerLine : string)
    (result : MapsAnalysis) : MapsAnalysis :=
  match kws with
  | [] => result
  | keyword :: kws' =>
      if Str.found (Str.find lowerLine keyword)
      then on_keyword keyword line result
      else scan_keywords kws' line lowerLine result
  end.

(** The body of the [while] loop for one line. *)
Definition scan_line (line : string) (result : MapsAnalysis) : MapsAnalysis :=
  let result := mark_rwx line result in
  let lowerLine := Str.lower line in
  scan_keywords keywords line lowerLine result.

(** Lines 54-103: [while (getline(maps, line) && lineCount < MAX_LINES)].
    The stream is consulted first, the cap second; the final [lineCount] is
    returned with the result so that the number of iterations can be stated. *)
Fixpoint maps_loop (maps : list string) (lineCount : Z) (result : MapsAnalysis)
    : MapsAnalysis * Z :=
  match maps with
  | [] => (result, lineCount)
  | line :: maps' =>
      if lineCount <? MAX_LINES
      then maps_loop maps' (int_incr lineCount) (scan_line line result)
      else (result, lineCount)
  end.

(** [analyzeProcMaps]: [None] is a listing that cannot be opened, [Some c]
    one whose content is [c]. *)
Definition analyzeProcMaps (maps : option string) : MapsAnalysis :=
  match maps with
  | None => MapsAnalysis_default
  | Some content => fst (maps_loop (lines_of content) 0 MapsAnalysis_default)
  end.

(** The lines one call of [analyzeProcMaps] can be handed. *)
Definition lines_in (maps : option string) : list string :=
  match maps with
  | None => []
  | Some content => lines_of content
  end.

(** Does a lower-cased line contain one of the eight keywords? *)
Definition has_keyword (lowerLine : string) : bool :=
  existsb (fun keyword => Str.found (Str.find lowerLine keyword)) keywords.

(** Does a lower-cased line contain one of the frida or gum keywords? *)
Definition has_frida_or_gum (lowerLine : string) : bool :=
  Str.found (Str.find lowerLine "frida")
  || Str.found (Str.find lowerLine "gum-js")
  || Str.found (Str.find lowerLine "gum_js").

(** ** FdScanner *)

Definition MAX_FD_CHECK : Z := 100.

(** [PATH_MAX] of [<limits.h>] on Linux. *)
Definition PATH_MAX : nat := 4096.

(** [readlink(path, buf, bufsiz)] over a table [link] of symlink contents:
    [None] is the failure return [-1]; otherwise the bytes placed in the
    buffer, at most [bufsiz] of them, whose number is the returned length. *)
Definition readlink (link : string -> option string) (path : string) (bufsiz : nat)
    : option string :=
  option_map (fun t => Str.substr_to t bufsiz) (link path).

(** [std::string(const char* )]: the bytes before the first NUL. *)
Fixpoint c_string (buf : string) : string :=
  match buf with
  | EmptyString => EmptyString
  | String a buf' => if Ascii.eqb a zero then EmptyString else String a (c_string buf')
  end.

(** [entry->d_name[0] == '.'] *)
Definition dot_entry (d_name : string) : bool :=
  match d_name with
  | String a _ => Ascii.eqb a "."
  | EmptyString => false
  end.

(** Lines 130-137: the link target as the code holds it in [target], when
    [readlink] returned a positive length. *)
Definition link_target (link : string -> option string) (d_name : string)
    : option string :=
  let fdPath := "/proc/self/fd/" ++ d_name in
  match readlink link fdPath (PATH_MAX - 1) with
  | Some buf =>
      if (0 <? Z.of_nat (String.length buf)) then Some (c_string buf) else None
  | None => None
  end.

(** Lines 139-143: the lower-cased target against the three keywords. *)
Definition frida_target (target : string) : bool :=
  let target := Str.lower target in
  Str.found (Str.find target "frida")
  || Str.found (Str.find target "gadget")
  || Str.found (Str.find target "gum-js").

(** What the scan leaves behind: the flag it returns, the final [count], and
    the directory entries whose link it read, in order. *)
Record FdScan : Type := mkFdScan {
  found : bool;
  count : Z;
  examined : list string
}.

(** Lines 123-148: [while ((entry = readdir(dir)) != nullptr && count < MAX_FD_CHECK)].
    [dir] holds the names [readdir] still has to return. *)
Fixpoint fd_loop (link : string -> option string) (dir : list string)
    (count : Z) (examined : list string) : FdScan :=
  match dir with
  | [] => mkFdScan false count examined
  | d_name :: dir' =>
      if count <? MAX_FD_CHECK then
        let count := int_incr count in
        if dot_entry d_name then fd_loop link dir' count examined
        else
          let examined := (examined ++ [d_name])%list in
          match link_target link d_name with
          | Some target =>
              if frida_target target then mkFdScan true count examined
              else fd_loop link dir' count examined
          | None => fd_loop link dir' count examined
          end
      else mkFdScan false count examined
  end.

(** The scan of [/proc/self/fd]: [None] is a directory [opendir] cannot open. *)
Definition scanFd (link : string -> option string) (dir : option (list string))
    : FdScan :=
  match dir with
  | None => mkFdScan false 0 []
  | Some entries => fd_loop link entries 0 []
  end.

Definition checkFdForFrida (link : string -> option string)
    (dir : option (list string)) : bool :=
  found (scanFd link dir).

(** ** SymbolResolver *)

Record LibcCheck : Type := mkLibcCheck {
  soPath : string;
  unexpected : bool
}.

(** What [dladdr(getpid, &info)] gives: [None] when it returns 0, otherwise
    [info.dli_fname], itself [None] when it is the null pointer. *)
Definition dladdr_result : Type := option (option string).

Definition checkLibcSymbol (dl : dladdr_result) : LibcCheck :=
  match dl with
  | Some (Some dli_fname) =>
      let path := dli_fname in
      if negb (Str.found (Str.find path "/system/lib"))
         && negb (Str.found (Str.find path "/apex/"))
         && negb (Str.found (Str.find path "libc.so"))
      then mkLibcCheck dli_fname true
      else mkLibcCheck dli_fname false
  | _ => mkLibcCheck EmptyString false
  end.

(** ** ReportBuilder *)

Definition dquote : ascii := "034"%char.
Definition backslash : ascii := "092"%char.

Fixpoint escapeJsonString (str : string) : string :=
  match str with
  | EmptyString => EmptyString
  | String c str' =>
      if Ascii.eqb c dquote || Ascii.eqb c backslash
      then String backslash (String c (escapeJsonString str'))
      else String c (escapeJsonString str')
  end.

(** A string between two quote characters. *)
Definition quoted (s : string) : string :=
  String dquote (s ++ String dquote EmptyString).

(** The body of the loop of [vectorToJsonArray]: every element quoted and
    escaped, a comma after each but the last. *)
Fixpoint array_items (vec : list string) : string :=
  match vec with
  | [] => EmptyString
  | [x] => quoted (escapeJsonString x)
  | x :: vec' => quoted (escapeJsonString x) ++ "," ++ array_items vec'
  end.

Definition vectorToJsonArray (vec : list string) : string :=
  match vec with
  | [] => "[]"
  | _ => "[" ++ array_items vec ++ "]"
  end.

(** [ostream << int] *)
Definition show_int (z : Z) : string := NilEmpty.string_of_int (Z.to_int z).

(** [b ? "true" : "false"] *)
Definition show_bool (b : bool) : string := if b then "true" else "false".

(** Everything one call reads from the platform.  [elapsed_text] is what
    [ostream << double] writes for [elapsed.count()]. *)
Record Platform : Type := mkPlatform {
  proc_maps : option string;
  proc_fd : option (list string);
  fd_link : string -> option string;
  dladdr_getpid : dladdr_result;
  elapsed_text : string
}.

(** A field name as the report writes it: quoted, then a colon. *)
Definition key (name : string) : string := quoted name ++ ":".

(** Lines 222-252: the three detectors, then the text assembled in [json].
    The result is [json.str()]; its conversion to a Java string by
    [NewStringUTF] is left out. *)
Definition collectNativeSignals (p : Platform) : string :=
  let mapsResult := analyzeProcMaps (proc_maps p) in
  let fdFrida := checkFdForFrida (fd_link p) (proc_fd p) in
  let libcResult := checkLibcSymbol (dladdr_getpid p) in
  "{"
  ++ key "rwxSegments" ++ show_int (rwxSegments mapsResult) ++ ","
  ++ key "hasRwx" ++ show_bool (hasRwx mapsResult) ++ ","
  ++ key "fridaLibLoaded" ++ show_bool (fridaLibLoaded mapsResult) ++ ","
  ++ key "fdFrida" ++ show_bool fdFrida ++ ","
  ++ key "libcGetpidSo" ++ quoted (escapeJsonString (soPath libcResult)) ++ ","
  ++ key "libcGetpidUnexpected" ++ show_bool (unexpected libcResult) ++ ","
  ++ key "nativeTimeMs" ++ elapsed_text p ++ ","
  ++ key "suspiciousModules" ++ vectorToJsonArray (suspiciousModules mapsResult)
  ++ "}".

(** ** Reading a report back

    The parser that consumes the report is not among these sources.  The
    reader below is the one the round-trip properties are stated against; it
    follows the serialized shape of the design document and the conventions
    of the writer above: an object is a brace-enclosed, comma-separated
    sequence of [name:value] members without white space; a value is a number
    token, [true], [false], a quoted string, or a bracketed list of quoted
    strings; inside quotes a backslash announces a quote or a backslash and
    every other character stands for itself. *)

Module Json.

Inductive value : Type :=
| Number (text : string)
| Bool (b : bool)
| Text (s : string)
| Array (items : list string).

Definition is_digit (c : ascii) : bool :=
  let n := nat_of_ascii c in (48 <=? n)%nat && (n <=? 57)%nat.

Definition is_sign (c : ascii) : bool := Ascii.eqb c "+" || Ascii.eqb c "-".

Definition is_exp (c : ascii) : bool := Ascii.eqb c "e" || Ascii.eqb c "E".

(** The characters a number token is made of. *)
Definition number_char (c : ascii) : bool :=
  is_digit c || is_sign c || is_exp c || Ascii.eqb c ".".

(** The number grammar: [-? (0 | [1-9][0-9]* ) (.[0-9]+)? ([eE][+-]?[0-9]+)?]. *)
Inductive nstate : Type :=
| NStart | NMinus | NZero | NInt | NDot | NFrac | NExp | NExpSign | NExpDigits.

Definition accepting (st : nstate) : bool :=
  match st with
  | NZero | NInt | NFrac | NExpDigits => true
  | _ => false
  end.

Definition nstep (st : nstate) (c : ascii) : option nstate :=
  match st with
  | NStart =>
      if Ascii.eqb c "-" then Some NMinus
      else if Ascii.eqb c "0" then Some NZero
      else if is_digit c then Some NInt else None
  | NMinus =>
      if Ascii.eqb c "0" then Some NZero
      else if is_digit c then Some NInt else None
  | NZero =>
      if Ascii.eqb c "." then Some NDot
      else if is_exp c then Some NExp else None
  | NInt =>
      if is_digit c then Some NInt
      else if Ascii.eqb c "." then Some NDot
      else if is_exp c then Some NExp else None
  | NDot => if is_digit c then Some NFrac else None
  | NFrac =>
      if is_digit c then Some NFrac
      else if is_exp c then Some NExp else None
  | NExp =>
      if is_sign c then Some NExpSign
      else if is_digit c then Some NExpDigits else None
  | NExpSign => if is_digit c then Some NExpDigits else None
  | NExpDigits => if is_digit c then Some NExpDigits else None
  end.

Fixpoint nrun (st : nstate) (s : string) : bool :=
  match s with
  | EmptyString => accepting st
  | String c s' =>
      match nstep st c with
      | Some st' => nrun st' s'
      | None => false
      end
  end.

Definition is_number (s : string) : bool := nrun NStart s.

(** The longest run of number characters at the head of [s], and the rest. *)
Fixpoint read_number (s : string) : string * string :=
  match s with
  | EmptyString => (EmptyString, EmptyString)
  | String c s' =>
      if number_char c
      then let '(t, r) := read_number s' in (String c t, r)
      else (EmptyString, s)
  end.

(** The characters up to the closing quote, un-escaped, and what follows
    the quote.  [s] starts after the opening quote. *)
Fixpoint read_string (s : string) : option (string * string) :=
  match s with
  | EmptyString => None
  | String c s' =>
      if Ascii.eqb c dquote then Some (EmptyString, s')
      else if Ascii.eqb c backslash then
        match s' with
        | String d s'' =>
            if Ascii.eqb d dquote || Ascii.eqb d backslash then
              match read_string s'' with
              | Some (v, r) => Some (String d v, r)
              | None => None
              end
            else None
        | EmptyString => None
        end
      else
        match read_string s' with
        | Some (v, r) => Some (String c v, r)
        | None => None
        end
  end.

(** Un-escaping on its own: a backslash is dropped and the quote or
    backslash after it kept; a quote without its backslash is refused. *)
Fixpoint unescape (s : string) : option string :=
  match s with
  | EmptyString => Some EmptyString
  | String c s' =>
      if Ascii.eqb c backslash then
        match s' with
        | String d s'' =>
            if Ascii.eqb d dquote || Ascii.eqb d backslash
            then option_map (String d) (unescape s'')
            else None
        | EmptyString => None
        end
      else if Ascii.eqb c dquote then None
      else option_map (String c) (unescape s')
  end.

(** The elements of a non-empty list, up to and including the closing
    bracket. *)
Fixpoint read_items (fuel : nat) (s : string) : option (list string * string) :=
  match fuel with
  | O => None
  | S fuel' =>
      match s with
      | String c s' =>
          if Ascii.eqb c dquote then
            match read_string s' with
            | Some (x, String d r) =>
                if Ascii.eqb d "," then
                  match read_items fuel' r with
                  | Some (xs, r') => Some (x :: xs, r')
                  | None => None
                  end
                else if Ascii.eqb d "]" then Some ([x], r)
                else None
            | _ => None
            end
          else None
      | EmptyString => None
      end
  end.

Definition read_value (s : string) : option (value * string) :=
  match s with
  | EmptyString => None
  | String c s' =>
      if Ascii.eqb c dquote then
        match read_string s' with
        | Some (x, r) => Some (Text x, r)
        | None => None
        end
      else if Ascii.eqb c "[" then
        match s' with
        | String d r =>
            if Ascii.eqb d "]" then Some (Array [], r)
            else match read_items (String.length s') s' with
                 | Some (xs, r') => Some (Array xs, r')
                 | None => None
                 end
        | EmptyString => None
        end
      else if Str.starts_with "true" s then Some (Bool true, Str.substr_from s 4)
      else if Str.starts_with "false" s then Some (Bool false, Str.substr_from s 5)
      else
        let '(t, r) := read_number s in
        if is_number t then Some (Number t, r) else None
  end.

(** The members of a non-empty object, up to and including the closing
    brace. *)
Fixpoint read_members (fuel : nat) (s : string)
    : option (list (string * value) * string) :=
  match fuel with
  | O => None
  | S fuel' =>
      match s with
      | String c s' =>
          if Ascii.eqb c dquote then
            match read_string s' with
            | Some (name, String d r) =>
                if Ascii.eqb d ":" then
                  match read_value r with
                  | Some (v, String e r') =>
                      if Ascii.eqb e "," then
                        match read_members fuel' r' with
                        | Some (ms, r'') => Some ((name, v) :: ms, r'')
                        | None => None
                        end
                      else if Ascii.eqb e "}" then Some ([(name, v)], r')
                      else None
                  | _ => None
                  end
                else None
            | _ => None
            end
          else None
      | EmptyString => None
      end
  end.

(** A whole text as one object: nothing may follow the closing brace. *)
Definition read_object (s : string) : option (list (string * value)) :=
  match s with
  | String c s' =>
      if Ascii.eqb c "{" then
        match s' with
        | String d r =>
            if Ascii.eqb d "}" then
              if Str.is_empty r then Some [] else None
            else match read_members (String.length s') s' with
                 | Some (ms, EmptyString) => Some ms
                 | _ => None
                 end
        | EmptyString => None
        end
      else None
  | EmptyString => None
  end.

Fixpoint lookup (name : string) (ms : list (string * value)) : option value :=
  match ms with
  | [] => None
  | (n, v) :: ms' => if String.eqb n name then Some v else lookup name ms'
  end.

Definition as_int (v : option value) : option Z :=
  match v with
  | Some (Number t) => option_map Z.of_int (NilEmpty.int_of_string t)
  | _ => None
  end.

Definition as_number (v : option value) : option string :=
  match v with Some (Number t) => Some t | _ => None end.

Definition as_bool (v : option value) : option bool :=
  match v with Some (Bool b) => Some b | _ => None end.

Definition as_text (v : option value) : option string :=
  match v with Some (Text s) => Some s | _ => None end.

Definition as_list (v : option value) : option (list string) :=
  match v with Some (Array xs) => Some xs | _ => None end.

End Json.

(** The report as a record, and the typed reading of a serialized one:
    all eight fields must be present with their types, and nothing else. *)

Module Report.

Record t : Type := mk {
  rwxSegments : Z;
  hasRwx : bool;
  fridaLibLoaded : bool;
  fdFrida : bool;
  libcGetpidSo : string;
  libcGetpidUnexpected : bool;
  nativeTimeMs : string;
  suspiciousModules : list string
}.

Definition field_names : list string :=
  ["rwxSegments"; "hasRwx"; "fridaLibLoaded"; "fdFrida"; "libcGetpidSo";
   "libcGetpidUnexpected"; "nativeTimeMs"; "suspiciousModules"].

Definition of_members (ms : list (string * Json.value)) : option t :=
  if negb (Nat.eqb (List.length ms) 8) then None else
  match Json.as_int (Json.lookup "rwxSegments" ms),
        Json.as_bool (Json.lookup "hasRwx" ms),
        Json.as_bool (Json.lookup "fridaLibLoaded" ms),
        Json.as_bool (Json.lookup "fdFrida" ms),
        Json.as_text (Json.lookup "libcGetpidSo" ms),
        Json.as_bool (Json.lookup "libcGetpidUnexpected" ms),
        Json.as_number (Json.lookup "nativeTimeMs" ms),
        Json.as_list (Json.lookup "suspiciousModules" ms) with
  | Some a, Some b, Some c, Some d, Some e, Some f, Some g, Some h =>
      Some (mk a b c d e f g h)
  | _, _, _, _, _, _, _, _ => None
  end.

Definition deserialize (s : string) : option t :=
  match Json.read_object s with
  | Some ms => of_members ms
  | None => None
  end.

End Report.

Fixpoint all_chars (f : ascii -> bool) (s : string) : bool :=
  match s with
  | EmptyString => true
  | String c s' => f c && all_chars f s'
  end.

(** The values one call puts in its report. *)
Definition report_of (p : Platform) : Report.t :=
  let mapsResult := analyzeProcMaps (proc_maps p) in
  let libcResult := checkLibcSymbol (dladdr_getpid p) in
  Report.mk (rwxSegments mapsResult) (hasRwx mapsResult)
    (fridaLibLoaded mapsResult)
    (checkFdForFrida (fd_link p) (proc_fd p))
    (soPath libcResult) (unexpected libcResult)
    (elapsed_text p) (suspiciousModules mapsResult).

(** The members a report has when it is written out: the eight names of the
    contract, in the order the writer emits them, each with a value of its
    type. *)
Definition members_of (r : Report.t) : list (string * Json.value) :=
  [("rwxSegments", Json.Number (show_int (Report.rwxSegments r)));
   ("hasRwx", Json.Bool (Report.hasRwx r));
   ("fridaLibLoaded", Json.Bool (Report.fridaLibLoaded r));
   ("fdFrida", Json.Bool (Report.fdFrida r));
   ("libcGetpidSo", Json.Text (Report.libcGetpidSo r));
   ("libcGetpidUnexpected", Json.Bool (Report.libcGetpidUnexpected r));
   ("nativeTimeMs", Json.Number (Report.nativeTimeMs r));
   ("suspiciousModules", Json.Array (Report.suspiciousModules r))].

(** ** Vocabulary of the properties *)

(** The loop as a left fold over the lines it gets to. *)
Definition scan_lines (lines : list string) (r : MapsAnalysis) : MapsAnalysis :=
  fold_left (fun acc line => scan_line line acc) lines r.

(** The lines [analyzeProcMaps] gets to: the first [MAX_LINES] of them. *)
Definition processed_lines (maps : option string) : list string :=
  firstn (Z.to_nat MAX_LINES) (lines_in maps).

(** The number of times the body of the loop of [analyzeProcMaps] runs. *)
Definition maps_iterations (maps : option string) : Z :=
  match maps with
  | None => 0
  | Some content => snd (maps_loop (lines_of content) 0 MapsAnalysis_default)
  end.

(** The module name a line offers to the suspicious-module list: the line
    holds a keyword and a slash, and the name cut out of it is not empty. *)
Definition offered_module (line : string) : option string :=
  if has_keyword (Str.lower line) then
    match module_of line with
    | Some module => if Str.is_empty module then None else Some module
    | None => None
    end
  else None.

Definition offered_modules (lines : list string) : list string :=
  flat_map (fun line => match offered_module line with
                        | Some module => [module]
                        | None => []
                        end) lines.

(** A list with every repetition of an element after its first occurrence
    removed. *)
Fixpoint first_occurrences (xs : list string) : list string :=
  match xs with
  | [] => []
  | x :: xs' => x :: filter (fun y => negb (String.eqb y x)) (first_occurrences xs')
  end.

(** The names [readdir] has to offer. *)
Definition entries_in (dir : option (list string)) : list string :=
  match dir with
  | None => []
  | Some entries => entries
  end.

Definition non_dot (entries : list string) : list string :=
  filter (fun d_name => negb (dot_entry d_name)) entries.

(** Does the link behind a directory entry, as the code reads and
    lower-cases it, contain one of [frida], [gadget], [gum-js]? *)
Definition fd_hit (link : string -> option string) (d_name : string) : bool :=
  match link_target link d_name with
  | Some target => frida_target target
  | None => false
  end.

(** What a scan of [dir] that starts at [count = n] leaves behind, told
    apart by the flag it returns. *)
Definition fd_outcome (link : string -> option string) (dir : list string)
    (n : Z) (r : FdScan) : Prop :=
  let seen := firstn (Z.to_nat (MAX_FD_CHECK - n)) dir in
  if found r then
    exists pre d post,
      seen = (pre ++ d :: post)%list /\ dot_entry d = false /\
      fd_hit link d = true /\
      (forall d', In d' (non_dot pre) -> fd_hit link d' = false) /\
      examined r = (non_dot pre ++ [d])%list /\
      count r = n + Z.of_nat (List.length pre) + 1
  else
    examined r = non_dot seen /\
    (forall d', In d' (non_dot seen) -> fd_hit link d' = false) /\
    count r = Z.min MAX_FD_CHECK (n + Z.of_nat (List.length dir)).

(** The first [MAX_FD_CHECK] names of the directory. *)
Definition capped_entries (dir : option (list string)) : list string :=
  firstn (Z.to_nat MAX_FD_CHECK) (entries_in dir).

(** ** Sample inputs *)

Definition frida_server_fd (path : string) : option string :=
  if String.eqb path "/proc/self/fd/7" then Some "/data/local/tmp/re.frida.server"
  else if String.eqb path "/proc/self/fd/9" then None
  else Some "/dev/null".

Definition plain_fd (path : string) : option string := Some "/dev/null".

Definition fd_names : list string := ["."; ".."; "0"; "7"; "9"; "12"].

(** [n] lines holding [x], then [tail]. *)
Fixpoint filler (n : nat) (tail : string) : string :=
  match n with
  | O => tail
  | S n' => String "x" (String newline (filler n' tail))
  end.

Definition repeated_modules : string :=
  "7a8f000-7a90000 r-xp 00000000 fd:00 11 /data/local/tmp/frida-agent.so"
  ++ String newline "7a91000-7a92000 r--p 00000000 fd:00 12 /system/framework/XposedBridge.jar"
  ++ String newline "7a93000-7a94000 rw-p 00001000 fd:00 11 /data/local/tmp/frida-agent.so"
  ++ String newline "7a95000-7a96000 rw-p 00000000 00:00 0 [anon:gum-js-heap]"
  ++ String newline "7a97000-7a98000 r-xp 00000000 fd:00 13 /data/app/substrate/"
  ++ String newline EmptyString.

Definition demo : Platform :=
  mkPlatform
    (Some "/data/local/tmp/frida-agent.so rwxp ...")
    (Some fd_names) frida_server_fd
    (Some (Some ("/data/local/tmp/lib" ++ String dquote "x" ++ String backslash "hook.so")))
    "0.123".

(** As [demo], with another link table and another descriptor directory. *)
Definition demo2 : Platform :=
  mkPlatform
    (proc_maps demo)
    (Some ["3"]) (fun _ => Some "/data/local/tmp/Gadget")
    (dladdr_getpid demo) "0.123".

Definition frida_agent_maps : string := "/data/local/tmp/frida-agent.so rwxp ...".

Definition clean_maps : string :=
  "7a8f000-7a90000 r-xp 00000000 fd:00 1234 /system/lib64/libc.so"
  ++ String newline "7a91000-7a92000 rw-p 00000000 00:00 0 [heap]"
  ++ String newline "7a93000-7a94000 rwxp 00000000 00:00 0 /data/app/Base.APK"
  ++ String newline EmptyString.

(** ** Vocabulary of the further properties *)

(** Does a line carry the writable-executable marker? *)
Definition rwx_line (line : string) : bool := Str.found (Str.find line " rwx").

(** The three path fragments [checkLibcSymbol] accepts. *)
Definition libc_fragments : list string := ["/system/lib"; "/apex/"; "libc.so"].

(** A platform on which nothing can be opened or resolved. *)
Definition blind (link : string -> option string) (t : string) : Platform :=
  mkPlatform None None link None t.

(** A platform whose listing and directory open but are empty. *)
Definition bare (link : string -> option string) (t : string) : Platform :=
  mkPlatform (Some EmptyString) (Some []) link (Some None) t.

(** ** JSON proper

    Inside a JSON string every character below U+0020 must be escaped.  The
    reader above lets such a character stand for itself; [read_json_object]
    refuses a text in which a name or a string holds one. *)

Definition control_char (c : ascii) : bool := (nat_of_ascii c <? 32)%nat.

Definition clean (s : string) : bool :=
  all_chars (fun c => negb (control_char c)) s.

(** [Json.read_string] with the rule on control characters built in. *)
Fixpoint read_strict_string (s : string) : option (string * string) :=
  match s with
  | EmptyString => None
  | String c s' =>
      if Ascii.eqb c dquote then Some (EmptyString, s')
      else if control_char c then None
      else if Ascii.eqb c backslash then
        match s' with
        | String d s'' =>
            if Ascii.eqb d dquote || Ascii.eqb d backslash then
              match read_strict_string s'' with
              | Some (v, r) => Some (String d v, r)
              | None => None
              end
            else None
        | EmptyString => None
        end
      else
        match read_strict_string s' with
        | Some (v, r) => Some (String c v, r)
        | None => None
        end
  end.

Definition clean_value (v : Json.value) : bool :=
  match v with
  | Json.Text s => clean s
  | Json.Array items => forallb clean items
  | Json.Number _ | Json.Bool _ => true
  end.

Definition clean_member (m : string * Json.value) : bool :=
  clean (fst m) && clean_value (snd m).

(** A whole text as one JSON object. *)
Definition read_json_object (s : string) : option (list (string * Json.value)) :=
  match Json.read_object s with
  | Some ms => if forallb clean_member ms then Some ms else None
  | None => None
  end.

(** ** Vocabulary of the descriptor scan *)

Definition fd_keywords : list string := ["frida"; "gadget"; "gum-js"].

(** The link behind a directory entry can be read, is not empty, and its
    target, lower-cased, contains one of the three keywords. *)
Definition target_matches (link : string -> option string) (d_name : string) : Prop :=
  exists target kw a b,
    link_target link d_name = Some target /\
    In kw fd_keywords /\
    Str.lower target = a ++ kw ++ b.

(** ** What a scan of an escaped text meets *)

Inductive escapes : Type :=
| WellEscaped        (* every backslash announces a quote or a backslash *)
| BareQuote          (* a quote without a backslash before it *)
| BadEscape          (* a backslash before some other character *)
| DanglingBackslash. (* a backslash at the very end *)

Fixpoint scan_escapes (s : string) : escapes :=
  match s with
  | EmptyString => WellEscaped
  | String c s' =>
      if Ascii.eqb c backslash then
        match s' with
        | String d s'' =>
            if Ascii.eqb d dquote || Ascii.eqb d backslash
            then scan_escapes s'' else BadEscape
        | EmptyString => DanglingBackslash
        end
      else if Ascii.eqb c dquote then BareQuote
      else scan_escapes s'
  end.

(** ** Further sample inputs *)

Definition tab : ascii := "009"%char.

(** A mapped file whose name holds a TAB. *)
Definition tab_maps : string :=
  "7a8f000-7a90000 r-xp 00000000 fd:00 11 /data/local/tmp/frida"
  ++ String tab "agent.so" ++ String newline EmptyString.

Definition tab_platform : Platform :=
  mkPlatform (Some tab_maps) (Some fd_names) plain_fd
    (Some (Some "/apex/com.android.runtime/lib64/bionic/libc.so")) "0.123".

Definition mixed_case_fd (path : string) : option string :=
  if String.eqb path "/proc/self/fd/7" then Some "/data/local/tmp/Re.FRIDA.Server"
  else if String.eqb path "/proc/self/fd/12" then Some "/data/app/lib/libGum-JS.so"
  else Some "/dev/null".

(** * Properties *)

(** ** The line stream *)

Lemma lines_of_getline (s : string) :
  lines_of s =
  match getline s with
  | None => []
  | Some (line, rest) => line :: lines_of rest
  end.
Proof.
  induction s as [|c s IH]; [reflexivity|].
  cbn [lines_of getline read_line].
  destruct (Ascii.eqb c newline); [reflexivity|].
  rewrite IH. destruct s as [|d s]; [reflexivity|].
  cbn [getline]. now destruct (read_line (String d s)).
Qed.

(** ** Counters stay clear of the [int] range *)

Lemma int_incr_small (x : Z) : 0 <= x < INT_MAX -> int_incr x = x + 1.
Proof.
  intros H. unfold int_incr, wrap_int, INT_MAX in *.
  rewrite Z.mod_small by lia. lia.
Qed.

(** ** MapsScanner: one line *)

Lemma mark_rwx_flag line r : fridaLibLoaded (mark_rwx line r) = fridaLibLoaded r.
Proof. unfold mark_rwx. now destruct (_ || _). Qed.

Lemma mark_rwx_modules line r :
  suspiciousModules (mark_rwx line r) = suspiciousModules r.
Proof. unfold mark_rwx. now destruct (_ || _). Qed.

Lemma scan_keywords_modules kws line lowerLine r :
  suspiciousModules (scan_keywords kws line lowerLine r) =
  if existsb (fun keyword => Str.found (Str.find lowerLine keyword)) kws
  then match module_of line with
       | Some module => push_unique module (suspiciousModules r)
       | None => suspiciousModules r
       end
  else suspiciousModules r.
Proof.
  induction kws as [|k kws IH]; simpl; [reflexivity|].
  destruct (Str.found (Str.find lowerLine k)); simpl; [reflexivity|apply IH].
Qed.

Lemma scan_line_modules line r :
  suspiciousModules (scan_line line r) =
  if has_keyword (Str.lower line)
  then match module_of line with
       | Some module => push_unique module (suspiciousModules r)
       | None => suspiciousModules r
       end
  else suspiciousModules r.
Proof.
  unfold scan_line, has_keyword.
  rewrite scan_keywords_modules, mark_rwx_modules. reflexivity.
Qed.

Lemma scan_line_flag line r :
  fridaLibLoaded (scan_line line r) =
  fridaLibLoaded r || has_frida_or_gum (Str.lower line).
Proof.
  unfold scan_line, has_frida_or_gum.
  generalize (mark_rwx_flag line r).
  generalize (mark_rwx line r) as r'. intros r' <-.
  generalize (Str.lower line) as l. intros l.
  unfold keywords, scan_keywords.
  destruct (Str.find l "frida"); [simpl; now rewrite orb_true_r|].
  destruct (Str.find l "gum-js"); [simpl; now rewrite orb_true_r|].
  destruct (Str.find l "gum_js"); [simpl; now rewrite orb_true_r|].
  simpl Str.found. rewrite orb_false_r.
  repeat match goal with
         | |- context [Str.find l ?k] => destruct (Str.find l k); [reflexivity|]
         end.
  reflexivity.
Qed.

Lemma scan_line_quiet line r :
  has_keyword (Str.lower line) = false ->
  suspiciousModules (scan_line line r) = suspiciousModules r /\
  fridaLibLoaded (scan_line line r) = fridaLibLoaded r.
Proof.
  intros H. rewrite scan_line_modules, scan_line_flag, H. split; [reflexivity|].
  unfold has_keyword, keywords in H. simpl in H.
  unfold has_frida_or_gum.
  destruct (Str.found (Str.find (Str.lower line) "frida")); [discriminate|].
  destruct (Str.found (Str.find (Str.lower line) "gum-js")); [discriminate|].
  destruct (Str.found (Str.find (Str.lower line) "gum_js")); [discriminate|].
  now rewrite orb_false_r.
Qed.

(** ** MapsScanner: the loop *)


Lemma maps_loop_count maps : forall n r,
  0 <= n <= MAX_LINES ->
  snd (maps_loop maps n r) = Z.min MAX_LINES (n + Z.of_nat (List.length maps)).
Proof.
  induction maps as [|line maps IH]; intros n r Hn; simpl maps_loop.
  - simpl. unfold MAX_LINES in *. lia.
  - destruct (Z.ltb_spec n MAX_LINES) as [Hlt|Hge].
    + rewrite int_incr_small by (unfold MAX_LINES, INT_MAX in *; lia).
      rewrite IH by lia.
      change (List.length (line :: maps)) with (S (List.length maps)). lia.
    + simpl snd. lia.
Qed.

Lemma maps_loop_result maps : forall n r,
  0 <= n <= MAX_LINES ->
  fst (maps_loop maps n r) =
  scan_lines (firstn (Z.to_nat (MAX_LINES - n)) maps) r.
Proof.
  induction maps as [|line maps IH]; intros n r Hn; simpl maps_loop.
  - now rewrite firstn_nil.
  - destruct (Z.ltb_spec n MAX_LINES) as [Hlt|Hge].
    + rewrite int_incr_small by (unfold MAX_LINES, INT_MAX in *; lia).
      rewrite IH by lia.
      replace (Z.to_nat (MAX_LINES - n)) with (S (Z.to_nat (MAX_LINES - (n + 1)))) by lia.
      reflexivity.
    + replace (Z.to_nat (MAX_LINES - n)) with O by lia. reflexivity.
Qed.


Lemma analyzeProcMaps_fold maps :
  analyzeProcMaps maps = scan_lines (processed_lines maps) MapsAnalysis_default.
Proof.
  destruct maps as [content|]; unfold analyzeProcMaps, processed_lines, lines_in.
  - rewrite maps_loop_result by (unfold MAX_LINES; lia).
    now rewrite Z.sub_0_r.
  - now rewrite firstn_nil.
Qed.

Lemma processed_lines_incl maps line :
  In line (processed_lines maps) -> In line (lines_in maps).
Proof.
  unfold processed_lines. intros H.
  rewrite <- (firstn_skipn (Z.to_nat MAX_LINES) (lines_in maps)).
  apply in_or_app. now left.
Qed.

Lemma scan_lines_quiet lines : forall r,
  (forall line, In line lines -> has_keyword (Str.lower line) = false) ->
  suspiciousModules (scan_lines lines r) = suspiciousModules r /\
  fridaLibLoaded (scan_lines lines r) = fridaLibLoaded r.
Proof.
  induction lines as [|line lines IH]; intros r H; simpl; [now split|].
  destruct (IH (scan_line line r)) as [Hm Hf].
  - intros l Hl. apply H. now right.
  - destruct (scan_line_quiet line r) as [Hm' Hf'].
    + apply H. now left.
    + rewrite Hm, Hf. now split.
Qed.

(** ** The claims on MapsScanner *)

(** C2: on the one-line listing [/data/local/tmp/frida-agent.so rwxp ...]
    (with or without a final newline) [analyzeProcMaps] reports a
    writable-executable region, a loaded hook library, and the single
    suspicious module [frida-agent.so]: the text after the last slash, cut at
    its first space. *)
Theorem frida_agent_line :
  lines_of frida_agent_maps = [frida_agent_maps] /\
  lines_of (frida_agent_maps ++ String newline EmptyString) = [frida_agent_maps] /\
  analyzeProcMaps (Some frida_agent_maps) =
    mkMapsAnalysis 1 true true ["frida-agent.so"] /\
  analyzeProcMaps (Some (frida_agent_maps ++ String newline EmptyString)) =
    mkMapsAnalysis 1 true true ["frida-agent.so"] /\
  Str.rfind_char frida_agent_maps "/" = Some 15%nat /\
  Str.substr_from frida_agent_maps 16 = "frida-agent.so rwxp ..." /\
  Str.find_char "frida-agent.so rwxp ..." " " = Some 14%nat /\
  module_of frida_agent_maps = Some "frida-agent.so".
Proof. repeat split; vm_compute; reflexivity. Qed.

(** The same holds whatever follows [rwxp] on the line, as long as it
    brings no further slash and no newline. *)
Lemma lines_of_one_line (s : string) :
  Str.find_char s newline = None ->
  lines_of s = match s with EmptyString => [] | _ => [s] end.
Proof.
  induction s as [|c s IH]; simpl; [reflexivity|].
  destruct (Ascii.eqb c newline); [discriminate|].
  destruct (Str.find_char s newline); [discriminate|]. intros _.
  rewrite IH by reflexivity. now destruct s.
Qed.

Lemma starts_with_append (p a t : string) :
  Str.starts_with p a = true -> Str.starts_with p (a ++ t) = true.
Proof.
  revert a. induction p as [|x p IH]; intros a H; [reflexivity|].
  destruct a as [|y a]; [discriminate H|].
  change (Str.starts_with (String x p) (String y a))
    with (Ascii.eqb x y && Str.starts_with p a) in H.
  change (Str.starts_with (String x p) (String y a ++ t))
    with (Ascii.eqb x y && Str.starts_with p (a ++ t)).
  apply andb_true_iff in H. destruct H as [-> H]. now rewrite IH.
Qed.

Lemma find_append (a t p : string) :
  Str.found (Str.find a p) = true -> Str.found (Str.find (a ++ t) p) = true.
Proof.
  induction a as [|y a IH]; intros H.
  - destruct p; [now destruct t|discriminate H].
  - change (Str.find (String y a) p)
      with (if Str.starts_with p (String y a) then Some O
            else option_map S (Str.find a p)) in H.
    change (Str.find (String y a ++ t) p)
      with (if Str.starts_with p (String y a ++ t) then Some O
            else option_map S (Str.find (a ++ t) p)).
    destruct (Str.starts_with p (String y a)) eqn:E.
    + now rewrite (starts_with_append _ _ t E).
    + destruct (Str.starts_with p (String y a ++ t)); [reflexivity|].
      destruct (Str.find a p); [|discriminate H].
      specialize (IH eq_refl). now destruct (Str.find (a ++ t) p).
Qed.

Lemma rfind_char_append (a t : string) (c : ascii) :
  Str.rfind_char t c = None -> Str.rfind_char (a ++ t) c = Str.rfind_char a c.
Proof.
  intros H. induction a as [|y a IH]; [exact H|].
  cbn [append Str.rfind_char]. now rewrite IH.
Qed.

Lemma find_char_append (a t : string) (c : ascii) (i : nat) :
  Str.find_char a c = Some i -> Str.find_char (a ++ t) c = Some i.
Proof.
  revert i. induction a as [|y a IH]; intros i H; [discriminate H|].
  cbn [append Str.find_char] in *.
  destruct (Ascii.eqb y c); [assumption|].
  destruct (Str.find_char a c) as [j|]; [|discriminate H].
  now rewrite (IH j eq_refl).
Qed.

Lemma substr_from_append (a t : string) (n : nat) :
  (n <= String.length a)%nat ->
  Str.substr_from (a ++ t) n = Str.substr_from a n ++ t.
Proof.
  revert a. induction n as [|n IH]; intros a H; [now destruct a, t|].
  destruct a as [|y a]; [simpl in H; lia|].
  cbn [append Str.substr_from]. apply IH. simpl in H. lia.
Qed.

Lemma substr_to_append (a t : string) (n : nat) :
  (n <= String.length a)%nat ->
  Str.substr_to (a ++ t) n = Str.substr_to a n.
Proof.
  revert a. induction n as [|n IH]; intros a H; [now destruct a, t|].
  destruct a as [|y a]; [simpl in H; lia|].
  cbn [append Str.substr_to]. rewrite IH; [reflexivity|simpl in H; lia].
Qed.

Lemma lower_append (a t : string) :
  Str.lower (a ++ t) = Str.lower a ++ Str.lower t.
Proof.
  induction a as [|y a IH]; [reflexivity|].
  cbn [append Str.lower]. now rewrite IH.
Qed.

Lemma frida_agent_any_tail (tail : string) :
  Str.rfind_char tail "/" = None ->
  Str.find_char tail newline = None ->
  analyzeProcMaps (Some ("/data/local/tmp/frida-agent.so rwxp" ++ tail)) =
  mkMapsAnalysis 1 true true ["frida-agent.so"].
Proof.
  intros Hslash Hnl.
  set (head := "/data/local/tmp/frida-agent.so rwxp").
  assert (Hlines : lines_of (head ++ tail) = [head ++ tail]).
  { rewrite lines_of_one_line; [reflexivity|].
    destruct (Str.find_char (head ++ tail) newline) as [i|] eqn:E; [|reflexivity].
    exfalso. revert E. unfold head. cbn [append Str.find_char].
    repeat match goal with
           | |- context [Ascii.eqb ?x newline] =>
               change (Ascii.eqb x newline) with false; cbv iota
           end.
    rewrite Hnl. discriminate. }
  assert (Hrwx : Str.found (Str.find (head ++ tail) " rwxp") = true)
    by (apply find_append; vm_compute; reflexivity).
  assert (Hfrida : Str.found (Str.find (Str.lower (head ++ tail)) "frida") = true)
    by (rewrite lower_append; apply find_append; vm_compute; reflexivity).
  assert (Hmod : module_of (head ++ tail) = Some "frida-agent.so").
  { unfold module_of. rewrite rfind_char_append by assumption.
    replace (Str.rfind_char head "/") with (Some 15%nat) by (vm_compute; reflexivity).
    rewrite substr_from_append by (vm_compute; lia).
    replace (Str.substr_from head (15 + 1)) with "frida-agent.so rwxp"
      by (vm_compute; reflexivity).
    rewrite (find_char_append _ _ _ 14) by (vm_compute; reflexivity).
    rewrite substr_to_append by (vm_compute; lia).
    vm_compute. reflexivity. }
  unfold analyzeProcMaps. rewrite Hlines. cbn [maps_loop fst].
  change (0 <? MAX_LINES) with true. cbv iota. cbn [fst].
  unfold scan_line, mark_rwx. rewrite Hrwx. cbn [orb].
  unfold keywords. cbn [scan_keywords]. rewrite Hfrida.
  unfold on_keyword. rewrite Hmod. vm_compute. reflexivity.
Qed.

(** C7: when no line of the listing, lower-cased, contains one of the eight
    keywords, [suspiciousModules] is empty and [fridaLibLoaded] is false. *)
Theorem no_keyword_no_signal (maps : option string) :
  (forall line, In line (lines_in maps) -> has_keyword (Str.lower line) = false) ->
  suspiciousModules (analyzeProcMaps maps) = [] /\
  fridaLibLoaded (analyzeProcMaps maps) = false.
Proof.
  intros H. rewrite analyzeProcMaps_fold.
  apply (scan_lines_quiet (processed_lines maps) MapsAnalysis_default).
  intros line Hl. apply H. now apply processed_lines_incl.
Qed.


Lemma no_keyword_no_signal_witness :
  List.length (lines_in (Some clean_maps)) = 3%nat /\
  suspiciousModules (analyzeProcMaps (Some clean_maps)) = [] /\
  fridaLibLoaded (analyzeProcMaps (Some clean_maps)) = false.
Proof.
  split; [reflexivity|].
  apply (no_keyword_no_signal (Some clean_maps)).
  intros line H. vm_compute in H.
  destruct H as [<-|[<-|[<-|[]]]]; reflexivity.
Defined.

(** C10: a line that contains a keyword but no slash adds nothing to
    [suspiciousModules], while a frida or gum keyword in it still sets
    [fridaLibLoaded]; so a result with [fridaLibLoaded] set and no suspicious
    module is reachable (the one-line listing [frida] gives it). *)
Theorem keyword_without_slash (line : string) (result : MapsAnalysis) :
  has_keyword (Str.lower line) = true ->
  Str.rfind_char line "/" = None ->
  suspiciousModules (scan_line line result) = suspiciousModules result /\
  fridaLibLoaded (scan_line line result) =
    (fridaLibLoaded result || has_frida_or_gum (Str.lower line)) /\
  (has_frida_or_gum (Str.lower line) = true ->
   fridaLibLoaded (scan_line line result) = true) /\
  fridaLibLoaded (analyzeProcMaps (Some "frida")) = true /\
  suspiciousModules (analyzeProcMaps (Some "frida")) = [].
Proof.
  intros Hk Hs. rewrite scan_line_modules, scan_line_flag, Hk.
  unfold module_of. rewrite Hs.
  repeat split.
  intros ->. apply orb_true_r.
Qed.

Lemma keyword_without_slash_witness :
  suspiciousModules (scan_line "libFrida-Gadget.so (deleted)" MapsAnalysis_default) = [] /\
  fridaLibLoaded (scan_line "libFrida-Gadget.so (deleted)" MapsAnalysis_default) = true.
Proof.
  destruct (keyword_without_slash "libFrida-Gadget.so (deleted)"
              MapsAnalysis_default eq_refl eq_refl) as (H1 & _ & H3 & _).
  split; [exact H1 | exact (H3 eq_refl)].
Defined.

(** ** First-seen order *)

Lemma existsb_eqb_In (x : string) (l : list string) :
  existsb (fun m => String.eqb m x) l = true <-> In x l.
Proof.
  rewrite existsb_exists. split.
  - intros (m & Hin & Heq). apply String.eqb_eq in Heq. now subst.
  - intros Hin. exists x. split; [assumption|apply String.eqb_refl].
Qed.

Lemma filter_twice {A} (f g : A -> bool) (l : list A) :
  filter f (filter g l) = filter (fun y => g y && f y) l.
Proof.
  induction l as [|a l IH]; simpl; [reflexivity|].
  destruct (g a); simpl; [destruct (f a)|]; now rewrite IH.
Qed.

Lemma In_first_occurrences (xs : list string) (x : string) :
  In x (first_occurrences xs) <-> In x xs.
Proof.
  induction xs as [|a xs IH]; simpl; [tauto|].
  rewrite filter_In, IH, negb_true_iff, String.eqb_neq.
  destruct (String.eqb_spec a x) as [->|Hne]; [tauto|].
  split; [tauto|]. intros [H|H]; [tauto|]. right. split; [assumption|congruence].
Qed.

Lemma NoDup_first_occurrences (xs : list string) : NoDup (first_occurrences xs).
Proof.
  induction xs as [|a xs IH]; simpl; constructor.
  - rewrite filter_In, String.eqb_refl. intros [_ H]. discriminate.
  - now apply NoDup_filter.
Qed.

(** The accumulation the code performs, against [first_occurrences]. *)
Lemma fold_push_unique (xs : list string) : forall acc,
  (forall x, In x xs -> x <> EmptyString) ->
  fold_left (fun a x => push_unique x a) xs acc =
  (acc ++ filter (fun y => negb (existsb (fun m => String.eqb m y) acc))
                 (first_occurrences xs))%list.
Proof.
  induction xs as [|x xs IH]; intros acc Hne; simpl.
  - now rewrite app_nil_r.
  - assert (Hx : Str.is_empty x = false).
    { destruct x; [exfalso; apply (Hne EmptyString); [now left|reflexivity]|reflexivity]. }
    rewrite IH by (intros y Hy; apply Hne; now right).
    unfold push_unique. rewrite Hx, andb_true_r.
    destruct (existsb (fun m => String.eqb m x) acc) eqn:Hmem; simpl.
    + f_equal. rewrite filter_twice. apply filter_ext. intros y.
      destruct (String.eqb_spec y x) as [->|Hyx]; simpl; [now rewrite Hmem|reflexivity].
    + rewrite <- app_assoc. simpl. f_equal. f_equal.
      rewrite filter_twice. apply filter_ext. intros y.
      rewrite existsb_app. simpl. rewrite orb_false_r, negb_orb.
      rewrite (String.eqb_sym x y). apply andb_comm.
Qed.

Lemma scan_line_offered line r :
  suspiciousModules (scan_line line r) =
  match offered_module line with
  | Some module => push_unique module (suspiciousModules r)
  | None => suspiciousModules r
  end.
Proof.
  rewrite scan_line_modules. unfold offered_module.
  destruct (has_keyword (Str.lower line)); [|reflexivity].
  destruct (module_of line) as [m|]; [|reflexivity].
  destruct m; [|reflexivity].
  unfold push_unique. simpl. now rewrite andb_false_r.
Qed.

Lemma scan_lines_offered lines : forall r,
  suspiciousModules (scan_lines lines r) =
  fold_left (fun a x => push_unique x a) (offered_modules lines) (suspiciousModules r).
Proof.
  induction lines as [|line lines IH]; intros r; simpl; [reflexivity|].
  unfold scan_lines in IH. rewrite IH, scan_line_offered, fold_left_app.
  now destruct (offered_module line).
Qed.

Lemma offered_modules_nonempty lines x :
  In x (offered_modules lines) -> x <> EmptyString.
Proof.
  unfold offered_modules. rewrite in_flat_map. intros (line & _ & Hx).
  unfold offered_module in Hx.
  destruct (has_keyword (Str.lower line)); [|destruct Hx].
  destruct (module_of line) as [m|]; [|destruct Hx].
  destruct m; simpl in Hx; [destruct Hx|].
  destruct Hx as [<-|[]]. discriminate.
Qed.

(** C3: for every listing the suspicious modules are pairwise distinct and
    non-empty, and they are the module names the processed lines offer, each
    kept at its first occurrence. *)
Theorem suspicious_modules_first_seen (maps : option string) :
  NoDup (suspiciousModules (analyzeProcMaps maps)) /\
  (forall m, In m (suspiciousModules (analyzeProcMaps maps)) -> m <> EmptyString) /\
  suspiciousModules (analyzeProcMaps maps) =
    first_occurrences (offered_modules (processed_lines maps)).
Proof.
  assert (E : suspiciousModules (analyzeProcMaps maps) =
              first_occurrences (offered_modules (processed_lines maps))).
  { rewrite analyzeProcMaps_fold, scan_lines_offered.
    rewrite fold_push_unique by apply offered_modules_nonempty.
    simpl. induction (first_occurrences _) as [|a l IH]; simpl; [reflexivity|].
    now rewrite IH. }
  rewrite E. split; [apply NoDup_first_occurrences|]. split; [|reflexivity].
  intros m Hm. rewrite In_first_occurrences in Hm.
  now apply offered_modules_nonempty in Hm.
Qed.

Example repeated_modules_example :
  analyzeProcMaps (Some repeated_modules) =
  mkMapsAnalysis 0 false true ["frida-agent.so"; "XposedBridge.jar"].
Proof. vm_compute. reflexivity. Qed.

(** ** FdScanner: the loop *)

Section FdLoop.

Variable link : string -> option string.

Lemma fd_loop_log dir : forall n ex,
  fd_loop link dir n ex =
  mkFdScan (found (fd_loop link dir n []))
           (count (fd_loop link dir n []))
           (ex ++ examined (fd_loop link dir n [])).
Proof.
  induction dir as [|d dir IH]; intros n ex; simpl.
  - now rewrite app_nil_r.
  - destruct (n <? MAX_FD_CHECK); [|now rewrite app_nil_r].
    destruct (dot_entry d); [apply IH|].
    destruct (link_target link d) as [target|].
    + destruct (frida_target target); [reflexivity|].
      rewrite (IH _ (ex ++ [d])%list), (IH _ [d]). simpl.
      now rewrite <- app_assoc.
    + rewrite (IH _ (ex ++ [d])%list), (IH _ [d]). simpl.
      now rewrite <- app_assoc.
Qed.

Lemma fd_loop_firstn dir : forall n ex,
  0 <= n <= MAX_FD_CHECK ->
  fd_loop link dir n ex =
  fd_loop link (firstn (Z.to_nat (MAX_FD_CHECK - n)) dir) n ex.
Proof.
  induction dir as [|d dir IH]; intros n ex Hn.
  - now rewrite firstn_nil.
  - destruct (Z.ltb_spec n MAX_FD_CHECK) as [Hlt|Hge].
    + replace (Z.to_nat (MAX_FD_CHECK - n))
        with (S (Z.to_nat (MAX_FD_CHECK - (n + 1)))) by lia.
      rewrite firstn_cons. simpl.
      destruct (Z.ltb_spec n MAX_FD_CHECK); [|lia].
      rewrite int_incr_small by (unfold MAX_FD_CHECK, INT_MAX in *; lia).
      destruct (dot_entry d); [apply IH; lia|].
      destruct (link_target link d) as [target|]; [|apply IH; lia].
      destruct (frida_target target); [reflexivity|apply IH; lia].
    + replace (Z.to_nat (MAX_FD_CHECK - n)) with O by lia. simpl.
      destruct (Z.ltb_spec n MAX_FD_CHECK); [lia|reflexivity].
Qed.

Lemma fd_loop_outcome dir : forall n,
  0 <= n <= MAX_FD_CHECK -> fd_outcome link dir n (fd_loop link dir n []).
Proof.
  induction dir as [|d dir IH]; intros n Hn; unfold fd_outcome.
  - rewrite firstn_nil. simpl. repeat split; [intros d' []|].
    unfold MAX_FD_CHECK in *. lia.
  - simpl fd_loop. destruct (Z.ltb_spec n MAX_FD_CHECK) as [Hlt|Hge].
    2:{ replace (Z.to_nat (MAX_FD_CHECK - n)) with O by lia. simpl.
        repeat split; [intros d' []|]. lia. }
    rewrite int_incr_small by (unfold MAX_FD_CHECK, INT_MAX in *; lia).
    replace (Z.to_nat (MAX_FD_CHECK - n))
      with (S (Z.to_nat (MAX_FD_CHECK - (n + 1)))) by lia.
    rewrite firstn_cons.
    specialize (IH (n + 1) ltac:(lia)). unfold fd_outcome in IH.
    set (seen := firstn (Z.to_nat (MAX_FD_CHECK - (n + 1))) dir) in *.
    change (List.length (d :: dir)) with (S (List.length dir)).
    destruct (dot_entry d) eqn:Hdot.
    { (* a dot entry: counted, not read *)
      destruct (found (fd_loop link dir (n + 1) [])).
      - destruct IH as (pre & d0 & post & Hs & Hd0 & Hh & Hpre & Hex & Hc).
        exists (d :: pre), d0, post. unfold non_dot in *. simpl.
        rewrite Hdot, Hs. simpl. repeat split; try assumption.
        rewrite Hc. lia.
      - destruct IH as (Hex & Hall & Hc). unfold non_dot in *. simpl.
        rewrite Hdot. simpl. repeat split; try assumption.
        rewrite Hc. lia. }
    assert (Hstep : forall r',
      r' = fd_loop link dir (n + 1) [] ->
      fd_hit link d = false ->
      let r := mkFdScan (found r') (count r') ([d] ++ examined r') in
      if found r
      then exists pre d0 post,
             d :: seen = (pre ++ d0 :: post)%list /\ dot_entry d0 = false /\
             fd_hit link d0 = true /\
             (forall d', In d' (non_dot pre) -> fd_hit link d' = false) /\
             examined r = (non_dot pre ++ [d0])%list /\
             count r = n + Z.of_nat (List.length pre) + 1
      else examined r = non_dot (d :: seen) /\
           (forall d', In d' (non_dot (d :: seen)) -> fd_hit link d' = false) /\
           count r = Z.min MAX_FD_CHECK (n + Z.of_nat (S (List.length dir)))).
    { intros r' -> Hmiss. simpl.
      destruct (found (fd_loop link dir (n + 1) [])).
      - destruct IH as (pre & d0 & post & Hs & Hd0 & Hh & Hpre & Hex & Hc).
        exists (d :: pre), d0, post. unfold non_dot in *. simpl.
        rewrite Hdot, Hs, Hex. simpl. repeat split; try assumption.
        + intros d' [<-|Hin]; [assumption|now apply Hpre].
        + rewrite Hc. lia.
      - destruct IH as (Hex & Hall & Hc). unfold non_dot in *. simpl.
        rewrite Hdot, Hex. simpl. repeat split.
        + intros d' [<-|Hin]; [assumption|now apply Hall].
        + rewrite Hc. lia. }
    destruct (link_target link d) as [target|] eqn:Ht.
    + destruct (frida_target target) eqn:Hf.
      * simpl. exists [], d, seen.
        assert (Hd : fd_hit link d = true) by (unfold fd_hit; now rewrite Ht).
        repeat split; try assumption; try reflexivity.
        -- intros d' [].
        -- simpl. lia.
      * rewrite fd_loop_log. apply Hstep; [reflexivity|].
        unfold fd_hit. now rewrite Ht.
    + rewrite fd_loop_log. apply Hstep; [reflexivity|].
      unfold fd_hit. now rewrite Ht.
Qed.

End FdLoop.

Lemma scanFd_outcome link dir :
  fd_outcome link (entries_in dir) 0 (scanFd link dir).
Proof.
  destruct dir as [entries|]; simpl.
  - apply fd_loop_outcome. unfold MAX_FD_CHECK. lia.
  - unfold fd_outcome. simpl. repeat split. intros d' [].
Qed.

Lemma capped_entries_length dir :
  (List.length (capped_entries dir) <= Z.to_nat MAX_FD_CHECK)%nat.
Proof. apply firstn_le_length. Qed.

(** ** The claims on the detectors' failure paths and caps *)

(** C5: a mapping listing that cannot be opened gives the all-default result
    and a descriptor directory that cannot be opened gives [false]; both are
    ordinary return values. *)
Theorem unavailable_resources_default (link : string -> option string) :
  analyzeProcMaps None = mkMapsAnalysis 0 false false [] /\
  checkFdForFrida link None = false /\
  examined (scanFd link None) = [].
Proof. repeat split. Qed.

(** The shape of a scan in terms of the test [fd_hit] the loop applies. *)
Lemma fd_scan_shape (link : string -> option string)
    (dir : option (list string)) :
  (checkFdForFrida link dir = true <->
   exists d, In d (examined (scanFd link dir)) /\ fd_hit link d = true) /\
  checkFdForFrida link dir = existsb (fd_hit link) (non_dot (capped_entries dir)) /\
  (checkFdForFrida link dir = true ->
   exists pre d post,
     capped_entries dir = (pre ++ d :: post)%list /\
     dot_entry d = false /\ fd_hit link d = true /\
     (forall d', In d' (non_dot pre) -> fd_hit link d' = false) /\
     examined (scanFd link dir) = (non_dot pre ++ [d])%list /\
     count (scanFd link dir) = Z.of_nat (List.length pre) + 1) /\
  (checkFdForFrida link dir = false ->
   examined (scanFd link dir) = non_dot (capped_entries dir) /\
   forall d, In d (examined (scanFd link dir)) -> fd_hit link d = false).
Proof.
  pose proof (scanFd_outcome link dir) as H.
  unfold fd_outcome in H. rewrite Z.sub_0_r in H.
  fold (capped_entries dir) in H.
  unfold checkFdForFrida.
  destruct (found (scanFd link dir)).
  - destruct H as (pre & d & post & Hs & Hd & Hh & Hpre & Hex & Hc).
    repeat split.
    + intros _. exists d. split; [|assumption].
      rewrite Hex. apply in_or_app. right. now left.
    + symmetry. apply existsb_exists. exists d. split; [|assumption].
      unfold non_dot. rewrite Hs. apply filter_In. split.
      * apply in_or_app. right. now left.
      * now rewrite Hd.
    + intros _. exists pre, d, post. repeat split; assumption.
    + discriminate.
    + discriminate.
  - destruct H as (Hex & Hall & Hc). repeat split; try discriminate.
    + intros (d & Hin & Hh). rewrite Hex in Hin. apply Hall in Hin. congruence.
    + symmetry. apply not_true_is_false. intros He.
      apply existsb_exists in He. destruct He as (d & Hin & Hh).
      apply Hall in Hin. congruence.
    + assumption.
    + intros d Hin. apply Hall. now rewrite <- Hex.
Qed.

(** C8: whatever the inputs, the body of the loop of [analyzeProcMaps] runs
    at most [MAX_LINES] = 10000 times and that of [checkFdForFrida] at most
    [MAX_FD_CHECK] = 100 times; what lies beyond the cap is dropped, the
    result being the one of the capped input, and it is an ordinary result. *)
Theorem caps_bound_the_scans (maps : option string)
    (link : string -> option string) (dir : option (list string)) :
  MAX_LINES = 10000 /\ MAX_FD_CHECK = 100 /\
  maps_iterations maps = Z.min MAX_LINES (Z.of_nat (List.length (lines_in maps))) /\
  0 <= maps_iterations maps <= MAX_LINES /\
  analyzeProcMaps maps =
    scan_lines (firstn (Z.to_nat MAX_LINES) (lines_in maps)) MapsAnalysis_default /\
  0 <= count (scanFd link dir) <= MAX_FD_CHECK /\
  count (scanFd link dir) <= Z.of_nat (List.length (entries_in dir)) /\
  Z.of_nat (List.length (examined (scanFd link dir))) <= count (scanFd link dir) /\
  scanFd link dir = scanFd link (option_map (firstn (Z.to_nat MAX_FD_CHECK)) dir).
Proof.
  assert (Hit : maps_iterations maps =
                Z.min MAX_LINES (Z.of_nat (List.length (lines_in maps)))).
  { destruct maps as [content|]; simpl; [|reflexivity].
    rewrite maps_loop_count by (unfold MAX_LINES; lia). reflexivity. }
  split; [reflexivity|]. split; [reflexivity|]. split; [exact Hit|].
  split; [rewrite Hit; unfold MAX_LINES; lia|].
  split; [apply analyzeProcMaps_fold|].
  pose proof (scanFd_outcome link dir) as H.
  unfold fd_outcome in H. rewrite Z.sub_0_r in H.
  fold (capped_entries dir) in H.
  pose proof (capped_entries_length dir) as Hcap.
  assert (Hlen : (List.length (capped_entries dir) <= List.length (entries_in dir))%nat).
  { unfold capped_entries. rewrite length_firstn. apply Nat.le_min_r. }
  assert (Hfd : 0 <= count (scanFd link dir) <= MAX_FD_CHECK /\
                count (scanFd link dir) <= Z.of_nat (List.length (entries_in dir)) /\
                Z.of_nat (List.length (examined (scanFd link dir)))
                <= count (scanFd link dir)).
  { destruct (found (scanFd link dir)).
    - destruct H as (pre & d & post & Hs & _ & _ & _ & Hex & Hc).
      rewrite Hs, length_app in Hcap, Hlen. simpl in Hcap, Hlen.
      rewrite Hex, length_app, Hc. simpl.
      pose proof (filter_length_le (fun d_name => negb (dot_entry d_name)) pre).
      unfold non_dot, MAX_FD_CHECK in *. lia.
    - destruct H as (Hex & _ & Hc). rewrite Hex, Hc.
      pose proof (filter_length_le (fun d_name => negb (dot_entry d_name))
                    (capped_entries dir)).
      unfold non_dot, MAX_FD_CHECK in *. lia. }
  destruct Hfd as (H1 & H2 & H3). repeat split; try assumption; try apply H1.
  destruct dir as [entries|]; [|reflexivity]. simpl.
  rewrite fd_loop_firstn by (unfold MAX_FD_CHECK; lia).
  now rewrite Z.sub_0_r.
Qed.

(** ** SymbolResolver *)



(** ** ReportBuilder: strings *)

Lemma append_assoc (a b c : string) : (a ++ b) ++ c = a ++ (b ++ c).
Proof. induction a as [|x a IH]; simpl; [reflexivity|now rewrite IH]. Qed.

Lemma append_length (a b : string) :
  String.length (a ++ b) = (String.length a + String.length b)%nat.
Proof. induction a as [|x a IH]; simpl; [reflexivity|now rewrite IH]. Qed.

Lemma key_append (name rest : string) :
  key name ++ rest = String dquote (name ++ String dquote (String ":" rest)).
Proof. unfold key, quoted. simpl. now rewrite !append_assoc. Qed.

Lemma quoted_append (s rest : string) :
  quoted s ++ rest = String dquote (s ++ String dquote rest).
Proof. unfold quoted. simpl. now rewrite append_assoc. Qed.

(** Every character of the argument reappears, in order, with a backslash
    in front of it exactly when it is a quote or a backslash. *)
Lemma escapeJsonString_step (c : ascii) (s : string) :
  escapeJsonString (String c s) =
  (if Ascii.eqb c dquote || Ascii.eqb c backslash
   then String backslash (String c EmptyString)
   else String c EmptyString) ++ escapeJsonString s.
Proof. simpl. now destruct (_ || _). Qed.

Lemma escapeJsonString_append (a b : string) :
  escapeJsonString (a ++ b) = escapeJsonString a ++ escapeJsonString b.
Proof.
  induction a as [|c a IH]; simpl; [reflexivity|].
  now destruct (_ || _); simpl; rewrite IH.
Qed.

(** Reading an escaped string up to its closing quote gives the string back. *)
Lemma read_string_escape (s rest : string) :
  Json.read_string (escapeJsonString s ++ String dquote rest) = Some (s, rest).
Proof.
  induction s as [|c s IH]; simpl.
  - reflexivity.
  - destruct (Ascii.eqb c dquote) eqn:Hq; simpl.
    + rewrite Hq. simpl. now rewrite IH.
    + destruct (Ascii.eqb c backslash) eqn:Hb; simpl.
      * rewrite Hq, Hb. simpl. now rewrite IH.
      * rewrite Hq, Hb. now rewrite IH.
Qed.

(** ** ReportBuilder: numbers *)

Lemma nstep_number_char st c st' :
  Json.nstep st c = Some st' -> Json.number_char c = true.
Proof.
  unfold Json.number_char.
  destruct st; simpl; unfold Json.is_sign, Json.is_exp;
    destruct (Ascii.eqb c "-") eqn:E1; try (intros _; now rewrite ?orb_true_r);
    destruct (Ascii.eqb c "0") eqn:E2;
    try (apply Ascii.eqb_eq in E2; subst c; intros _; reflexivity);
    destruct (Json.is_digit c) eqn:E3; try (intros _; reflexivity);
    destruct (Ascii.eqb c ".") eqn:E4; try (intros _; now rewrite ?orb_true_r);
    destruct (Ascii.eqb c "e") eqn:E5; try (intros _; now rewrite ?orb_true_r);
    destruct (Ascii.eqb c "E") eqn:E6; try (intros _; now rewrite ?orb_true_r);
    destruct (Ascii.eqb c "+") eqn:E7; try (intros _; now rewrite ?orb_true_r);
    simpl; try discriminate.
Qed.

Lemma nrun_number_chars s : forall st,
  Json.nrun st s = true -> all_chars Json.number_char s = true.
Proof.
  induction s as [|c s IH]; intros st H; simpl in *; [reflexivity|].
  destruct (Json.nstep st c) as [st'|] eqn:E; [|discriminate].
  rewrite (nstep_number_char _ _ _ E). simpl. now apply (IH st').
Qed.

Lemma read_number_token (t : string) (c : ascii) (rest : string) :
  all_chars Json.number_char t = true ->
  Json.number_char c = false ->
  Json.read_number (t ++ String c rest) = (t, String c rest).
Proof.
  intros Ht Hc. induction t as [|x t IH]; simpl in *.
  - now rewrite Hc.
  - apply andb_true_iff in Ht. destruct Ht as [Hx Ht].
    now rewrite Hx, (IH Ht).
Qed.

Lemma digits_run (d : Decimal.uint) :
  Json.nrun Json.NInt (NilEmpty.string_of_uint d) = true.
Proof. induction d; simpl; auto. Qed.

Lemma to_uint_head (p : positive) (d : Decimal.uint) : Pos.to_uint p <> Decimal.D0 d.
Proof.
  intros E.
  assert (Hn : Decimal.unorm (Pos.to_uint p) = Pos.to_uint p).
  { rewrite <- DecimalPos.Unsigned.to_of, DecimalPos.Unsigned.of_to. reflexivity. }
  rewrite E, DecimalFacts.unorm_D0 in Hn. unfold Decimal.unorm in Hn.
  destruct (Decimal.nzhead d) eqn:Hd;
    try (now apply (DecimalFacts.nzhead_nonzero d d); rewrite Hd).
  injection Hn as <-.
  now apply (DecimalPos.Unsigned.to_uint_nonzero p).
Qed.

Lemma positive_is_number (p : positive) :
  Json.nrun Json.NStart (NilEmpty.string_of_uint (Pos.to_uint p)) = true /\
  Json.nrun Json.NMinus (NilEmpty.string_of_uint (Pos.to_uint p)) = true.
Proof.
  pose proof (to_uint_head p) as Hh.
  pose proof (DecimalPos.Unsigned.to_uint_nonnil p) as Hn.
  destruct (Pos.to_uint p) as [|d|d|d|d|d|d|d|d|d|d];
    try (split; simpl; apply digits_run).
  - now elim Hn.
  - now elim (Hh d).
Qed.

(** What [ostream << int] writes is a number token. *)
Lemma show_int_is_number (z : Z) : Json.is_number (show_int z) = true.
Proof.
  unfold show_int, Json.is_number. destruct z as [|p|p]; simpl.
  - reflexivity.
  - apply positive_is_number.
  - apply positive_is_number.
Qed.

(** ... and reading it as a decimal integer gives the value back. *)
Lemma show_int_read (z : Z) :
  Json.as_int (Some (Json.Number (show_int z))) = Some z.
Proof.
  unfold show_int, Json.as_int. rewrite NilEmpty.isi.
  unfold option_map. now rewrite DecimalZ.of_to.
Qed.

(** ** ReportBuilder: values *)

Lemma number_char_head (c : ascii) :
  Json.number_char c = true ->
  Ascii.eqb c dquote = false /\ Ascii.eqb c "[" = false /\
  Ascii.eqb "t" c = false /\ Ascii.eqb "f" c = false.
Proof.
  destruct c as [[] [] [] [] [] [] [] []]; vm_compute; intros H;
    try discriminate H; repeat split.
Qed.

Lemma starts_with_head (a b : ascii) (p s : string) :
  Ascii.eqb a b = false -> Str.starts_with (String a p) (String b s) = false.
Proof.
  intros H.
  change (Str.starts_with (String a p) (String b s))
    with (Ascii.eqb a b && Str.starts_with p s).
  now rewrite H.
Qed.

Lemma read_value_number (t : string) (c : ascii) (rest : string) :
  Json.is_number t = true ->
  Json.number_char c = false ->
  Json.read_value (t ++ String c rest) = Some (Json.Number t, String c rest).
Proof.
  intros Ht Hc.
  pose proof (nrun_number_chars t _ Ht) as Hall.
  destruct t as [|x t]; [discriminate Ht|].
  pose proof Hall as Hall'. simpl in Hall'.
  apply andb_true_iff in Hall'. destruct Hall' as [Hx _].
  destruct (number_char_head x Hx) as (H1 & H2 & H3 & H4).
  pose proof (read_number_token (String x t) c rest Hall Hc) as Hr.
  simpl append in *. unfold Json.read_value.
  rewrite H1, H2, (starts_with_head _ _ _ _ H3), (starts_with_head _ _ _ _ H4).
  now rewrite Hr, Ht.
Qed.

Lemma read_value_bool (b : bool) (c : ascii) (rest : string) :
  Json.read_value (show_bool b ++ String c rest) = Some (Json.Bool b, String c rest).
Proof. now destruct b. Qed.

Lemma read_value_text (s rest : string) :
  Json.read_value (quoted (escapeJsonString s) ++ rest) = Some (Json.Text s, rest).
Proof.
  rewrite quoted_append. unfold Json.read_value.
  now rewrite Ascii.eqb_refl, read_string_escape.
Qed.

Lemma array_items_cons (x y : string) (vec : list string) :
  array_items (x :: y :: vec) =
  quoted (escapeJsonString x) ++ "," ++ array_items (y :: vec).
Proof. reflexivity. Qed.

Lemma read_items_array (vec : list string) : forall fuel rest,
  vec <> [] ->
  (List.length vec <= fuel)%nat ->
  Json.read_items fuel (array_items vec ++ String "]" rest) = Some (vec, rest).
Proof.
  induction vec as [|x vec IH]; intros fuel rest Hne Hfuel; [now elim Hne|].
  destruct fuel as [|fuel]; [simpl in Hfuel; lia|].
  destruct vec as [|y vec].
  - simpl array_items. rewrite quoted_append. simpl.
    now rewrite read_string_escape.
  - rewrite array_items_cons, append_assoc, quoted_append. simpl.
    rewrite read_string_escape. simpl.
    rewrite IH; [reflexivity|discriminate|simpl in *; lia].
Qed.

Lemma array_items_length (vec : list string) :
  (List.length vec <= String.length (array_items vec))%nat.
Proof.
  induction vec as [|x vec IH]; [simpl; lia|].
  destruct vec as [|y vec].
  - simpl. lia.
  - rewrite array_items_cons, !append_length.
    change (List.length (x :: y :: vec)) with (S (List.length (y :: vec))).
    remember (array_items (y :: vec)) as items.
    remember (List.length (y :: vec)) as n.
    unfold quoted. simpl String.length. lia.
Qed.

Lemma read_value_array (vec : list string) (rest : string) :
  Json.read_value (vectorToJsonArray vec ++ rest) = Some (Json.Array vec, rest).
Proof.
  destruct vec as [|x vec]; [reflexivity|].
  unfold vectorToJsonArray.
  change (("[" ++ array_items (x :: vec) ++ "]") ++ rest)
    with (String "[" ((array_items (x :: vec) ++ "]") ++ rest)).
  rewrite append_assoc. change ("]" ++ rest) with (String "]" rest).
  assert (H : Json.read_items
                (String.length (array_items (x :: vec) ++ String "]" rest))
                (array_items (x :: vec) ++ String "]" rest) = Some (x :: vec, rest)).
  { apply read_items_array; [discriminate|].
    rewrite append_length. pose proof (array_items_length (x :: vec)). lia. }
  assert (Hd : exists body,
             array_items (x :: vec) ++ String "]" rest = String dquote body).
  { destruct vec as [|y vec].
    - simpl array_items. rewrite quoted_append. eauto.
    - rewrite array_items_cons, append_assoc, quoted_append. eauto. }
  destruct Hd as (body & Hd). rewrite Hd in *.
  unfold Json.read_value.
  change (Ascii.eqb "[" dquote) with false.
  change (Ascii.eqb "[" "[") with true.
  change (Ascii.eqb dquote "]") with false.
  cbv iota. now rewrite H.
Qed.

(** ** ReportBuilder: members *)

Lemma read_members_fuel (f : nat) : forall s ms r f',
  Json.read_members f s = Some (ms, r) ->
  (f <= f')%nat ->
  Json.read_members f' s = Some (ms, r).
Proof.
  induction f as [|f IH]; intros s ms r f' H Hle; [discriminate H|].
  destruct f' as [|f']; [lia|]. simpl in *.
  destruct s as [|c s]; [discriminate|].
  destruct (Ascii.eqb c dquote); [|discriminate].
  destruct (Json.read_string s) as [[name [|d r0]]|]; try discriminate.
  destruct (Ascii.eqb d ":"); [|discriminate].
  destruct (Json.read_value r0) as [[v [|e r']]|]; try discriminate.
  destruct (Ascii.eqb e ","); [|assumption].
  destruct (Json.read_members f r') as [[ms' r'']|] eqn:E; [|discriminate].
  rewrite (IH _ _ _ f' E) by lia. assumption.
Qed.

Lemma read_members_step (f : nat) (body : string) :
  Json.read_members (S f) (String dquote body) =
  match Json.read_string body with
  | Some (name, String d r) =>
      if Ascii.eqb d ":" then
        match Json.read_value r with
        | Some (v, String e r') =>
            if Ascii.eqb e "," then
              match Json.read_members f r' with
              | Some (ms, r'') => Some ((name, v) :: ms, r'')
              | None => None
              end
            else if Ascii.eqb e "}" then Some ([(name, v)], r')
            else None
        | _ => None
        end
      else None
  | _ => None
  end.
Proof. reflexivity. Qed.

Lemma read_members_more (f : nat) (name vtext : string) (v : Json.value)
    (rest : string) :
  escapeJsonString name = name ->
  Json.read_value (vtext ++ String "," rest) = Some (v, String "," rest) ->
  Json.read_members (S f) (key name ++ vtext ++ String "," rest) =
  match Json.read_members f rest with
  | Some (ms, r) => Some ((name, v) :: ms, r)
  | None => None
  end.
Proof.
  intros Hname Hv. rewrite key_append, read_members_step.
  rewrite <- Hname at 1. rewrite read_string_escape.
  change (Ascii.eqb ":" ":") with true. cbv iota. rewrite Hv.
  reflexivity.
Qed.

Lemma read_members_last (f : nat) (name vtext : string) (v : Json.value)
    (rest : string) :
  escapeJsonString name = name ->
  Json.read_value (vtext ++ String "}" rest) = Some (v, String "}" rest) ->
  Json.read_members (S f) (key name ++ vtext ++ String "}" rest) =
  Some ([(name, v)], rest).
Proof.
  intros Hname Hv. rewrite key_append, read_members_step.
  rewrite <- Hname at 1. rewrite read_string_escape.
  change (Ascii.eqb ":" ":") with true. cbv iota. rewrite Hv.
  reflexivity.
Qed.

Lemma read_object_members (s : string) (ms : list (string * Json.value)) :
  (exists body, s = String dquote body) ->
  Json.read_members (String.length s) s = Some (ms, EmptyString) ->
  Json.read_object (String "{" s) = Some ms.
Proof.
  intros (body & ->) H. unfold Json.read_object.
  change (Ascii.eqb "{" "{") with true.
  change (Ascii.eqb dquote "}") with false.
  cbv iota. now rewrite H.
Qed.

(** ** ReportBuilder: the whole report *)

Lemma unescape_escape (s : string) :
  Json.unescape (escapeJsonString s) = Some s.
Proof.
  induction s as [|c s IH]; simpl; [reflexivity|].
  destruct (Ascii.eqb c dquote) eqn:Hq; simpl.
  - rewrite Hq. simpl. now rewrite IH.
  - destruct (Ascii.eqb c backslash) eqn:Hb; simpl.
    + rewrite Hq, Hb. simpl. now rewrite IH.
    + rewrite Hb, Hq. now rewrite IH.
Qed.

Lemma collect_members (p : Platform) :
  Json.is_number (elapsed_text p) = true ->
  Json.read_object (collectNativeSignals p) = Some (members_of (report_of p)).
Proof.
  intros Ht. unfold collectNativeSignals, report_of, members_of. cbv zeta.
  cbn [Report.rwxSegments Report.hasRwx Report.fridaLibLoaded Report.fdFrida
       Report.libcGetpidSo Report.libcGetpidUnexpected Report.nativeTimeMs
       Report.suspiciousModules].
  generalize (analyzeProcMaps (proc_maps p)) as m.
  generalize (checkFdForFrida (fd_link p) (proc_fd p)) as fd.
  generalize (checkLibcSymbol (dladdr_getpid p)) as lc.
  generalize dependent (elapsed_text p). intros t Ht lc fd m.
  match goal with
  | |- Json.read_object ("{" ++ ?body) = _ =>
      change ("{" ++ body) with (String "{" body)
  end.
  repeat match goal with
         | |- context ["," ++ ?x] => change ("," ++ x) with (String "," x)
         end.
  apply read_object_members; [rewrite key_append; eauto|].
  apply read_members_fuel with (f := 8%nat).
  - rewrite (read_members_more _ _ _ (Json.Number (show_int (rwxSegments m))));
      [|reflexivity|apply read_value_number; [apply show_int_is_number|reflexivity]].
    rewrite (read_members_more _ _ _ (Json.Bool (hasRwx m)));
      [|reflexivity|apply read_value_bool].
    rewrite (read_members_more _ _ _ (Json.Bool (fridaLibLoaded m)));
      [|reflexivity|apply read_value_bool].
    rewrite (read_members_more _ _ _ (Json.Bool fd));
      [|reflexivity|apply read_value_bool].
    rewrite (read_members_more _ _ _ (Json.Text (soPath lc)));
      [|reflexivity|apply read_value_text].
    rewrite (read_members_more _ _ _ (Json.Bool (unexpected lc)));
      [|reflexivity|apply read_value_bool].
    rewrite (read_members_more _ _ _ (Json.Number t));
      [|reflexivity|apply read_value_number; [exact Ht|reflexivity]].
    rewrite (read_members_last _ _ _ (Json.Array (suspiciousModules m)));
      [reflexivity|reflexivity|apply read_value_array].
  - rewrite append_length.
    change (String.length (key "rwxSegments")) with 14%nat. lia.
Qed.

Lemma of_members_of (r : Report.t) :
  Report.of_members (members_of r) = Some r.
Proof.
  destruct r as [a b c d e f g h]. unfold Report.of_members, members_of.
  cbn [Report.rwxSegments Report.hasRwx Report.fridaLibLoaded Report.fdFrida
       Report.libcGetpidSo Report.libcGetpidUnexpected Report.nativeTimeMs
       Report.suspiciousModules].
  change (negb (Nat.eqb (List.length _) 8)) with false. cbv iota.
  cbn [Json.lookup].
  repeat match goal with
         | |- context [String.eqb ?x ?y] =>
             let v := eval vm_compute in (String.eqb x y) in
             change (String.eqb x y) with v
         end.
  cbv iota. rewrite show_int_read. reflexivity.
Qed.

(** ** The claims on ReportBuilder *)

(** Under the reader's own convention for strings, and whenever the elapsed
    time is written as a number, the text [collectNativeSignals] returns
    reads as one object with the eight members of the contract. *)
Lemma report_members (p : Platform) :
  Json.is_number (elapsed_text p) = true ->
  let m := analyzeProcMaps (proc_maps p) in
  let lc := checkLibcSymbol (dladdr_getpid p) in
  Json.read_object (collectNativeSignals p) =
    Some [("rwxSegments", Json.Number (show_int (rwxSegments m)));
          ("hasRwx", Json.Bool (hasRwx m));
          ("fridaLibLoaded", Json.Bool (fridaLibLoaded m));
          ("fdFrida", Json.Bool (checkFdForFrida (fd_link p) (proc_fd p)));
          ("libcGetpidSo", Json.Text (soPath lc));
          ("libcGetpidUnexpected", Json.Bool (unexpected lc));
          ("nativeTimeMs", Json.Number (elapsed_text p));
          ("suspiciousModules", Json.Array (suspiciousModules m))].
Proof. intros Ht m lc. exact (collect_members p Ht). Qed.

(** C9: [escapeJsonString] copies its argument character by character,
    putting a backslash in front of each quote and each backslash and
    nothing anywhere else; un-escaping gives the argument back; and, whenever
    the elapsed time is written as a number, reading a report back gives
    every one of its eight values unchanged. *)
Theorem escape_round_trip :
  escapeJsonString EmptyString = EmptyString /\
  (forall c s,
     escapeJsonString (String c s) =
     (if Ascii.eqb c dquote || Ascii.eqb c backslash
      then String backslash (String c EmptyString)
      else String c EmptyString) ++ escapeJsonString s) /\
  (forall s, Json.unescape (escapeJsonString s) = Some s) /\
  (forall s rest,
     Json.read_value (quoted (escapeJsonString s) ++ rest) = Some (Json.Text s, rest)) /\
  (forall vec rest,
     Json.read_value (vectorToJsonArray vec ++ rest) = Some (Json.Array vec, rest)) /\
  (forall p,
     Json.is_number (elapsed_text p) = true ->
     Report.deserialize (collectNativeSignals p) = Some (report_of p)).
Proof.
  split; [reflexivity|]. split; [apply escapeJsonString_step|].
  split; [apply unescape_escape|]. split; [apply read_value_text|].
  split; [apply read_value_array|].
  intros p Ht. unfold Report.deserialize.
  rewrite (collect_members p Ht). apply of_members_of.
Qed.

Lemma escape_round_trip_witness :
  Report.deserialize (collectNativeSignals demo) = Some (report_of demo) /\
  Report.libcGetpidSo (report_of demo) =
    "/data/local/tmp/lib" ++ String dquote "x" ++ String backslash "hook.so".
Proof.
  split; [|reflexivity].
  destruct escape_round_trip as (_ & _ & _ & _ & _ & H).
  exact (H demo eq_refl).
Defined.

(** ** The counters never wrap *)

Lemma scan_line_rwx line r :
  0 <= rwxSegments r < INT_MAX ->
  rwxSegments r <= rwxSegments (scan_line line r) <= rwxSegments r + 1.
Proof.
  intros H. unfold scan_line.
  assert (E : forall kws l1 l2 r', rwxSegments (scan_keywords kws l1 l2 r') =
                                   rwxSegments r').
  { induction kws as [|k kws IH]; intros l1 l2 r'; simpl; [reflexivity|].
    destruct (Str.found _); [reflexivity|apply IH]. }
  rewrite E. unfold mark_rwx. destruct (_ || _); simpl; [|lia].
  rewrite int_incr_small by assumption. lia.
Qed.

Lemma scan_lines_rwx lines : forall r,
  0 <= rwxSegments r ->
  rwxSegments r + Z.of_nat (List.length lines) < INT_MAX ->
  rwxSegments r <= rwxSegments (scan_lines lines r)
  <= rwxSegments r + Z.of_nat (List.length lines).
Proof.
  induction lines as [|line lines IH]; intros r H0 H1; simpl scan_lines.
  - simpl. lia.
  - change (List.length (line :: lines)) with (S (List.length lines)) in *.
    pose proof (scan_line_rwx line r ltac:(lia)) as Hs.
    specialize (IH (scan_line line r) ltac:(lia) ltac:(lia)).
    unfold scan_lines in *. lia.
Qed.

Lemma rwxSegments_bounded (maps : option string) :
  0 <= rwxSegments (analyzeProcMaps maps) <= MAX_LINES.
Proof.
  rewrite analyzeProcMaps_fold.
  pose proof (firstn_le_length (Z.to_nat MAX_LINES) (lines_in maps)) as Hl.
  fold (processed_lines maps) in Hl.
  pose proof (scan_lines_rwx (processed_lines maps) MapsAnalysis_default) as H.
  simpl rwxSegments in H. unfold MAX_LINES, INT_MAX in *. lia.
Qed.

(** A listing one line over the cap: the hook library on line 10001 goes
    unseen, on line 10000 it is reported. *)
Example cap_overflow_example :
  maps_iterations (Some (filler (Z.to_nat 10000) "/tmp/frida.so")) = 10000 /\
  suspiciousModules (analyzeProcMaps (Some (filler (Z.to_nat 10000) "/tmp/frida.so"))) = [] /\
  suspiciousModules (analyzeProcMaps (Some (filler (Z.to_nat 9999) "/tmp/frida.so")))
  = ["frida.so"].
Proof. vm_compute. repeat split. Qed.


(** * Further properties *)

(** ** What [find], [find_char] and [rfind_char] compute *)

Lemma starts_with_spec (p s : string) :
  Str.starts_with p s = true <-> exists b, s = p ++ b.
Proof.
  revert s. induction p as [|x p IH]; intros s.
  - split; [intros _; now exists s|reflexivity].
  - destruct s as [|y s].
    + split; [discriminate|intros (b & E); discriminate E].
    + change (Str.starts_with (String x p) (String y s))
        with (Ascii.eqb x y && Str.starts_with p s).
      rewrite andb_true_iff, Ascii.eqb_eq, IH. split.
      * intros (-> & b & ->). now exists b.
      * intros (b & E). cbn [append] in E. injection E as -> ->.
        split; [reflexivity|now exists b].
Qed.

Lemma find_unfold (y : ascii) (s p : string) :
  Str.find (String y s) p =
  if Str.starts_with p (String y s) then Some O else option_map S (Str.find s p).
Proof. reflexivity. Qed.

Lemma find_spec (s p : string) :
  Str.found (Str.find s p) = true <-> exists a b, s = a ++ p ++ b.
Proof.
  split.
  - induction s as [|y s IH].
    + destruct p; [intros _; now exists EmptyString, EmptyString|discriminate].
    + rewrite find_unfold.
      destruct (Str.starts_with p (String y s)) eqn:E.
      * intros _. apply starts_with_spec in E. destruct E as (b & E).
        now exists EmptyString, b.
      * destruct (Str.find s p); [|discriminate]. intros _.
        destruct (IH eq_refl) as (a & b & ->). now exists (String y a), b.
  - intros (a & b & ->). induction a as [|y a IH].
    + cbn [append].
      assert (E : Str.starts_with p (p ++ b) = true)
        by (apply starts_with_spec; now exists b).
      destruct (p ++ b); [now destruct p|]. rewrite find_unfold. now rewrite E.
    + cbn [append]. rewrite find_unfold.
      destruct (Str.starts_with p _); [reflexivity|].
      now destruct (Str.find (a ++ p ++ b) p).
Qed.

(** A pattern is found wherever a text that contains it is found. *)
Lemma find_trans (s p q : string) :
  Str.found (Str.find p q) = true ->
  Str.found (Str.find s p) = true ->
  Str.found (Str.find s q) = true.
Proof.
  rewrite !find_spec. intros (a & b & ->) (c & d & ->).
  exists (c ++ a), (b ++ d). now rewrite !append_assoc.
Qed.

Lemma find_char_append_none (a b : string) (c : ascii) :
  Str.find_char (a ++ b) c = None <->
  Str.find_char a c = None /\ Str.find_char b c = None.
Proof.
  induction a as [|y a IH]; cbn [append Str.find_char]; [tauto|].
  destruct (Ascii.eqb y c).
  - split; [discriminate|intros [H _]; discriminate H].
  - destruct (Str.find_char (a ++ b) c) as [n|], (Str.find_char a c) as [m|];
      cbn [option_map].
    + split; [discriminate|intros [H _]; discriminate H].
    + split; [discriminate|]. intros [_ H]. destruct IH as [_ IH].
      discriminate (IH (conj eq_refl H)).
    + split; [|reflexivity]. intros _.
      destruct (proj1 IH eq_refl) as [H _]. discriminate H.
    + split; [|reflexivity]. intros _. split; [reflexivity|].
      now apply IH.
Qed.

Lemma find_char_spec (s : string) (c : ascii) (i : nat) :
  Str.find_char s c = Some i ->
  exists a b, s = a ++ String c b /\ String.length a = i /\
              Str.find_char a c = None.
Proof.
  revert i. induction s as [|y s IH]; intros i; cbn [Str.find_char]; [discriminate|].
  destruct (Ascii.eqb_spec y c) as [->|Hne].
  - intros [= <-]. now exists EmptyString, s.
  - destruct (Str.find_char s c) as [j|]; [|discriminate].
    intros [= <-]. destruct (IH j eq_refl) as (a & b & -> & <- & Ha).
    exists (String y a), b. repeat split. cbn [Str.find_char].
    destruct (Ascii.eqb_spec y c); [contradiction|]. now rewrite Ha.
Qed.

Lemma rfind_char_none (s : string) (c : ascii) :
  Str.rfind_char s c = None <-> Str.find_char s c = None.
Proof.
  induction s as [|y s IH]; cbn [Str.rfind_char Str.find_char]; [tauto|].
  destruct (Str.rfind_char s c), (Ascii.eqb y c), (Str.find_char s c);
    cbn [option_map]; split; try discriminate; try reflexivity;
    intros _; try (destruct IH as [IH1 IH2];
                   try discriminate (IH1 eq_refl); try discriminate (IH2 eq_refl)).
Qed.

Lemma rfind_char_spec (s : string) (c : ascii) (i : nat) :
  Str.rfind_char s c = Some i ->
  exists a b, s = a ++ String c b /\ String.length a = i /\
              Str.find_char b c = None.
Proof.
  revert i. induction s as [|y s IH]; intros i; cbn [Str.rfind_char]; [discriminate|].
  destruct (Str.rfind_char s c) as [j|] eqn:E.
  - intros [= <-]. destruct (IH j eq_refl) as (a & b & -> & <- & Hb).
    now exists (String y a), b.
  - destruct (Ascii.eqb_spec y c) as [->|Hne]; [|discriminate].
    intros [= <-]. exists EmptyString, s. repeat split.
    now apply rfind_char_none.
Qed.

Lemma substr_from_after (a b : string) (c : ascii) :
  Str.substr_from (a ++ String c b) (String.length a + 1) = b.
Proof.
  induction a as [|y a IH]; [now destruct b|].
  cbn [append String.length Nat.add Str.substr_from]. exact IH.
Qed.

Lemma substr_to_before (a b : string) :
  Str.substr_to (a ++ b) (String.length a) = a.
Proof.
  induction a as [|y a IH]; [now destruct b|].
  cbn [append String.length Str.substr_to]. now rewrite IH.
Qed.

(** ** The module name cut out of a line *)

Lemma module_of_cut (line m : string) :
  module_of line = Some m ->
  exists pre rest,
    line = pre ++ String "/" (m ++ rest) /\
    Str.find_char (m ++ rest) "/" = None /\
    Str.find_char m " " = None /\
    (rest = EmptyString \/ exists r, rest = String " " r).
Proof.
  unfold module_of. intros H.
  destruct (Str.rfind_char line "/") as [i|] eqn:Hr; [|discriminate].
  destruct (rfind_char_spec _ _ _ Hr) as (pre & b & -> & <- & Hb).
  rewrite substr_from_after in H.
  destruct (Str.find_char b " ") as [j|] eqn:Hs.
  - destruct (find_char_spec _ _ _ Hs) as (m' & r & -> & <- & Hm).
    rewrite substr_to_before in H. injection H as E0. subst m'.
    exists pre, (String " " r). repeat split; try assumption. right. now exists r.
  - injection H as E0. subst b. exists pre, EmptyString.
    assert (E : m ++ EmptyString = m)
      by (clear; induction m as [|x m IH]; cbn [append]; [|rewrite IH]; reflexivity).
    rewrite E. repeat split; try assumption. now left.
Qed.

(** X1: when [module_of] gives a name, the line is some text, a slash, the
    name, and a remainder; no slash follows the one before the name, the
    name holds no space, and the remainder is empty or starts with the space
    that ended the name.  It gives nothing exactly when the line has no
    slash. *)
Theorem module_of_decomposition (line : string) :
  (forall m, module_of line = Some m ->
     exists pre rest,
       line = pre ++ String "/" (m ++ rest) /\
       Str.find_char (m ++ rest) "/" = None /\
       Str.find_char m " " = None /\
       (rest = EmptyString \/ exists r, rest = String " " r)) /\
  (module_of line = None <-> Str.find_char line "/" = None).
Proof.
  split; [apply module_of_cut|].
  unfold module_of. rewrite <- rfind_char_none.
  destruct (Str.rfind_char line "/") as [i|]; [|tauto].
  split; [|discriminate].
  now destruct (Str.find_char (Str.substr_from line (i + 1)) " ").
Qed.

Lemma module_of_decomposition_witness :
  exists pre rest,
    "7a8f000-7a90000 r-xp /data/frida/libfoo.so (deleted)" =
      pre ++ String "/" ("libfoo.so" ++ rest) /\
    Str.find_char ("libfoo.so" ++ rest) "/" = None.
Proof.
  destruct (proj1 (module_of_decomposition
                     "7a8f000-7a90000 r-xp /data/frida/libfoo.so (deleted)")
              "libfoo.so" eq_refl) as (pre & rest & H1 & H2 & _).
  exists pre, rest. split; assumption.
Defined.

(** X2: the two [substr] calls of [analyzeProcMaps] stay inside their
    strings: the position after the last slash is at most the length of the
    line, and the position of the first space at most the length of the text
    it is searched in, so neither call can raise [out_of_range]. *)
Theorem substr_positions_in_range (line : string) (lastSlash : nat) :
  Str.rfind_char line "/" = Some lastSlash ->
  (lastSlash + 1 <= String.length line)%nat /\
  (forall space,
     Str.find_char (Str.substr_from line (lastSlash + 1)) " " = Some space ->
     (space < String.length (Str.substr_from line (lastSlash + 1)))%nat).
Proof.
  intros Hr. destruct (rfind_char_spec _ _ _ Hr) as (pre & b & -> & <- & _).
  rewrite substr_from_after, append_length. cbn [String.length]. split; [lia|].
  intros space Hs. destruct (find_char_spec _ _ _ Hs) as (m & r & -> & <- & _).
  rewrite append_length. cbn [String.length]. lia.
Qed.

Lemma substr_positions_in_range_witness :
  (15 + 1 <= String.length frida_agent_maps)%nat.
Proof.
  exact (proj1 (substr_positions_in_range frida_agent_maps 15 eq_refl)).
Defined.

(** ** The lines of a listing *)

Lemma lines_of_no_newline (content line : string) :
  In line (lines_of content) -> Str.find_char line newline = None.
Proof.
  revert line. induction content as [|c s IH]; intros line; cbn [lines_of].
  - intros [].
  - destruct (Ascii.eqb c newline) eqn:E.
    + intros [<-|H]; [reflexivity|now apply IH].
    + destruct (lines_of s) as [|l ls].
      * intros [<-|[]]. cbn [Str.find_char]. now rewrite E.
      * intros [<-|H].
        -- cbn [Str.find_char]. rewrite E, (IH l) by now left. reflexivity.
        -- apply IH. now right.
Qed.

Lemma modules_first_occurrences (maps : option string) :
  suspiciousModules (analyzeProcMaps maps) =
  first_occurrences (offered_modules (processed_lines maps)).
Proof.
  rewrite analyzeProcMaps_fold, scan_lines_offered.
  rewrite fold_push_unique by apply offered_modules_nonempty.
  simpl. induction (first_occurrences _) as [|a l IH]; simpl; [reflexivity|].
  now rewrite IH.
Qed.

(** X3: every suspicious module comes from a processed line that, lower-cased,
    holds a keyword; it is what [module_of] cuts out of that line, and it
    contains no slash, no space and no newline. *)
Theorem suspicious_module_origin (maps : option string) (m : string) :
  In m (suspiciousModules (analyzeProcMaps maps)) ->
  (exists line,
     In line (processed_lines maps) /\
     has_keyword (Str.lower line) = true /\
     module_of line = Some m) /\
  Str.find_char m "/" = None /\
  Str.find_char m " " = None /\
  Str.find_char m newline = None.
Proof.
  rewrite modules_first_occurrences, In_first_occurrences.
  unfold offered_modules. rewrite in_flat_map. intros (line & Hin & Hm).
  unfold offered_module in Hm.
  destruct (has_keyword (Str.lower line)) eqn:Hk; [|destruct Hm].
  destruct (module_of line) as [m'|] eqn:Hmod; [|destruct Hm].
  destruct (Str.is_empty m'); [destruct Hm|]. destruct Hm as [->|[]].
  split; [now exists line|].
  destruct (module_of_cut line m Hmod)
    as (pre & rest & E & Hslash & Hspace & _).
  apply find_char_append_none in Hslash. destruct Hslash as [Hslash _].
  repeat split; try assumption.
  assert (Hnl : Str.find_char line newline = None).
  { apply processed_lines_incl in Hin. destruct maps as [content|]; [|destruct Hin].
    now apply (lines_of_no_newline content). }
  rewrite E in Hnl. apply find_char_append_none in Hnl. destruct Hnl as [_ Hnl].
  cbn [Str.find_char] in Hnl.
  destruct (Ascii.eqb "/" newline); [discriminate|].
  destruct (Str.find_char (m ++ rest) newline) eqn:E2; [discriminate|].
  now apply find_char_append_none in E2.
Qed.

Lemma suspicious_module_origin_witness :
  Str.find_char "XposedBridge.jar" "/" = None /\
  Str.find_char "XposedBridge.jar" " " = None.
Proof.
  destruct (suspicious_module_origin (Some repeated_modules) "XposedBridge.jar")
    as (_ & H1 & H2 & _).
  - vm_compute. right. now left.
  - split; assumption.
Defined.

(** ** What the flags and the counter of [MapsAnalysis] record *)

Lemma scan_keywords_rwx kws l1 l2 r :
  rwxSegments (scan_keywords kws l1 l2 r) = rwxSegments r /\
  hasRwx (scan_keywords kws l1 l2 r) = hasRwx r.
Proof.
  induction kws as [|k kws IH]; cbn [scan_keywords]; [now split|].
  destruct (Str.found _); [now split|apply IH].
Qed.

Lemma rwxp_is_rwx (line : string) :
  Str.found (Str.find line " rwxp") || Str.found (Str.find line " rwx") =
  rwx_line line.
Proof.
  unfold rwx_line.
  destruct (Str.found (Str.find line " rwxp")) eqn:E; [|reflexivity].
  symmetry. apply (find_trans line " rwxp" " rwx"); [reflexivity|assumption].
Qed.

Lemma scan_line_rwx_step line r :
  rwxSegments (scan_line line r) =
    (if rwx_line line then int_incr (rwxSegments r) else rwxSegments r) /\
  hasRwx (scan_line line r) = rwx_line line || hasRwx r.
Proof.
  unfold scan_line.
  destruct (scan_keywords_rwx keywords line (Str.lower line) (mark_rwx line r))
    as [-> ->].
  unfold mark_rwx. rewrite rwxp_is_rwx. now destruct (rwx_line line).
Qed.

Lemma scan_lines_rwx_count lines : forall r,
  0 <= rwxSegments r ->
  rwxSegments r + Z.of_nat (List.length lines) < INT_MAX ->
  rwxSegments (scan_lines lines r) =
    rwxSegments r + Z.of_nat (List.length (filter rwx_line lines)) /\
  hasRwx (scan_lines lines r) = hasRwx r || existsb rwx_line lines.
Proof.
  induction lines as [|line lines IH]; intros r H0 H1.
  - cbn. split; [lia|now rewrite orb_false_r].
  - change (List.length (line :: lines)) with (S (List.length lines)) in H1.
    change (scan_lines (line :: lines) r) with (scan_lines lines (scan_line line r)).
    destruct (scan_line_rwx_step line r) as [Hc Hf].
    pose proof (filter_length_le rwx_line lines) as Hle.
    cbn [filter existsb]. destruct (rwx_line line).
    + rewrite int_incr_small in Hc by lia.
      destruct (IH (scan_line line r)) as [-> ->]; try lia.
      rewrite Hc, Hf. cbn [List.length orb].
      split; [lia|now rewrite orb_true_r].
    + destruct (IH (scan_line line r)) as [-> ->]; try lia.
      rewrite Hc, Hf. cbn [orb]. split; reflexivity.
Qed.

Lemma existsb_filter_length {A} (f : A -> bool) (l : list A) :
  existsb f l = true <-> (1 <= List.length (filter f l))%nat.
Proof.
  induction l as [|a l IH]; cbn [existsb filter].
  - cbn. split; [discriminate|lia].
  - destruct (f a); cbn [orb List.length]; [split; [lia|reflexivity]|exact IH].
Qed.

Lemma rwx_counts_marked_lines_aux (maps : option string) :
  rwxSegments (analyzeProcMaps maps) =
    Z.of_nat (List.length (filter rwx_line (processed_lines maps))) /\
  hasRwx (analyzeProcMaps maps) = existsb rwx_line (processed_lines maps).
Proof.
  pose proof (firstn_le_length (Z.to_nat MAX_LINES) (lines_in maps)) as Hl.
  fold (processed_lines maps) in Hl.
  destruct (scan_lines_rwx_count (processed_lines maps) MapsAnalysis_default)
    as [Hc Hh].
  - cbn. lia.
  - cbn [rwxSegments MapsAnalysis_default]. unfold MAX_LINES, INT_MAX in *. lia.
  - rewrite analyzeProcMaps_fold, Hc, Hh.
    cbn [rwxSegments hasRwx MapsAnalysis_default orb]. now rewrite Z.add_0_l.
Qed.

(** X4: [rwxSegments] is the number of processed lines that contain the
    four characters space, r, w, x (the test for the five-character form adds
    nothing), [hasRwx] says whether there is one, so it is set exactly when
    the counter is at least 1; the counter never exceeds [MAX_LINES]. *)
Theorem rwx_counts_marked_lines (maps : option string) :
  rwxSegments (analyzeProcMaps maps) =
    Z.of_nat (List.length (filter rwx_line (processed_lines maps))) /\
  hasRwx (analyzeProcMaps maps) = existsb rwx_line (processed_lines maps) /\
  (hasRwx (analyzeProcMaps maps) = true <-> 1 <= rwxSegments (analyzeProcMaps maps)) /\
  rwxSegments (analyzeProcMaps maps) <= MAX_LINES.
Proof.
  pose proof (firstn_le_length (Z.to_nat MAX_LINES) (lines_in maps)) as Hl.
  fold (processed_lines maps) in Hl.
  pose proof (filter_length_le rwx_line (processed_lines maps)) as Hf.
  destruct (rwx_counts_marked_lines_aux maps) as [Hc Hh].
  rewrite Hc, Hh. repeat split.
  - intros H. apply existsb_filter_length in H. lia.
  - intros H. apply existsb_filter_length. lia.
  - unfold MAX_LINES in *. lia.
Qed.

Lemma scan_lines_flag lines : forall r,
  fridaLibLoaded (scan_lines lines r) =
  fridaLibLoaded r || existsb (fun l => has_frida_or_gum (Str.lower l)) lines.
Proof.
  induction lines as [|line lines IH]; intros r.
  - cbn. now rewrite orb_false_r.
  - change (scan_lines (line :: lines) r) with (scan_lines lines (scan_line line r)).
    rewrite IH, scan_line_flag. cbn [existsb]. now rewrite orb_assoc.
Qed.

Lemma frida_flag_aux (maps : option string) :
  fridaLibLoaded (analyzeProcMaps maps) =
  existsb (fun l => has_frida_or_gum (Str.lower l)) (processed_lines maps).
Proof. rewrite analyzeProcMaps_fold. apply scan_lines_flag. Qed.

(** X5: [fridaLibLoaded] is set exactly when some processed line, lower-cased,
    contains [frida], [gum-js] or [gum_js]; a line that holds only one of the
    other five keywords leaves the flag as it was. *)
Theorem frida_flag_iff (maps : option string) :
  (fridaLibLoaded (analyzeProcMaps maps) = true <->
   exists line, In line (processed_lines maps) /\
                has_frida_or_gum (Str.lower line) = true) /\
  (forall line r, has_frida_or_gum (Str.lower line) = false ->
                  fridaLibLoaded (scan_line line r) = fridaLibLoaded r).
Proof.
  split.
  - rewrite frida_flag_aux. apply existsb_exists.
  - intros line r H. rewrite scan_line_flag, H. apply orb_false_r.
Qed.

(** X6: a lower-cased line holds one of the eight keywords exactly when it
    holds one of the first seven: whatever contains [edxposed] contains
    [xposed], which is tried first. *)
Theorem edxposed_subsumed (lowerLine : string) :
  has_keyword lowerLine =
  Str.found (Str.find lowerLine "frida")
  || Str.found (Str.find lowerLine "gum-js")
  || Str.found (Str.find lowerLine "gum_js")
  || Str.found (Str.find lowerLine "gadget")
  || Str.found (Str.find lowerLine "substrate")
  || Str.found (Str.find lowerLine "xposed")
  || Str.found (Str.find lowerLine "lsposed").
Proof.
  unfold has_keyword, keywords. cbn [existsb].
  pose proof (find_trans lowerLine "edxposed" "xposed" eq_refl) as H.
  destruct (Str.found (Str.find lowerLine "edxposed")).
  - rewrite (H eq_refl). now rewrite !orb_true_r, ?orb_true_l.
  - now rewrite !orb_false_r, !orb_assoc.
Qed.

(** X7: keywords are matched without regard to letter case: a line that
    contains, anywhere, a text whose lower-cased form is one of the eight
    keywords counts as holding a keyword, and when that keyword is [frida],
    [gum-js] or [gum_js] the line sets [fridaLibLoaded]. *)
Theorem keyword_any_case (kw a k b : string) :
  In kw keywords ->
  Str.lower k = kw ->
  has_keyword (Str.lower (a ++ k ++ b)) = true /\
  (forall r, In kw ["frida"; "gum-js"; "gum_js"] ->
             fridaLibLoaded (scan_line (a ++ k ++ b) r) = true).
Proof.
  intros Hin Hk.
  assert (Hf : Str.found (Str.find (Str.lower (a ++ k ++ b)) kw) = true).
  { rewrite !lower_append, Hk. apply find_spec. eauto. }
  split.
  - unfold has_keyword. apply existsb_exists. now exists kw.
  - intros r Hkw. rewrite scan_line_flag. unfold has_frida_or_gum.
    destruct Hkw as [<-|[<-|[<-|[]]]]; rewrite Hf;
      now rewrite ?orb_true_r, ?orb_true_l.
Qed.

Lemma keyword_any_case_witness :
  has_keyword (Str.lower ("7f00 r-xp /data/app/lib" ++ "FRIDA" ++ "-Gadget.so")) = true.
Proof.
  apply (keyword_any_case "frida" "7f00 r-xp /data/app/lib" "FRIDA" "-Gadget.so").
  - now left.
  - reflexivity.
Defined.

(** ** How the result grows with the listing *)

Lemma push_unique_grows (m : string) (mods : list string) :
  exists extra, push_unique m mods = (mods ++ extra)%list /\
                (List.length extra <= 1)%nat.
Proof.
  unfold push_unique. destruct (_ && _).
  - exists [m]. split; [reflexivity|cbn; lia].
  - exists []. split; [now rewrite app_nil_r|cbn; lia].
Qed.

Lemma scan_lines_grows lines : forall r,
  exists extra,
    suspiciousModules (scan_lines lines r) = (suspiciousModules r ++ extra)%list /\
    (List.length extra <= List.length lines)%nat.
Proof.
  induction lines as [|line lines IH]; intros r.
  - exists []. split; [cbn; now rewrite app_nil_r|cbn; lia].
  - change (scan_lines (line :: lines) r) with (scan_lines lines (scan_line line r)).
    destruct (IH (scan_line line r)) as (e2 & -> & H2).
    rewrite scan_line_offered.
    destruct (offered_module line) as [m|].
    + destruct (push_unique_grows m (suspiciousModules r)) as (e1 & -> & H1).
      exists (e1 ++ e2)%list. rewrite <- app_assoc, length_app.
      split; [reflexivity|cbn [List.length]; lia].
    + exists e2. split; [reflexivity|cbn [List.length]; lia].
Qed.

Lemma processed_lines_extend (maps1 maps2 : option string) (rest : list string) :
  lines_in maps2 = (lines_in maps1 ++ rest)%list ->
  exists more, processed_lines maps2 = (processed_lines maps1 ++ more)%list.
Proof.
  intros E. unfold processed_lines. rewrite E, firstn_app. eauto.
Qed.

(** X8: when a second listing starts with all the lines of a first one, its
    analysis extends the first: the suspicious modules of the first are an
    initial part of those of the second, flags that were set stay set, and
    the counter does not go down. *)
Theorem longer_listing_extends (maps1 maps2 : option string) (rest : list string) :
  lines_in maps2 = (lines_in maps1 ++ rest)%list ->
  (exists extra,
     suspiciousModules (analyzeProcMaps maps2) =
     (suspiciousModules (analyzeProcMaps maps1) ++ extra)%list) /\
  (hasRwx (analyzeProcMaps maps1) = true -> hasRwx (analyzeProcMaps maps2) = true) /\
  (fridaLibLoaded (analyzeProcMaps maps1) = true ->
   fridaLibLoaded (analyzeProcMaps maps2) = true) /\
  rwxSegments (analyzeProcMaps maps1) <= rwxSegments (analyzeProcMaps maps2).
Proof.
  intros E. destruct (processed_lines_extend _ _ _ E) as (more & Hp).
  destruct (rwx_counts_marked_lines_aux maps1) as (Hc1 & Hh1).
  destruct (rwx_counts_marked_lines_aux maps2) as (Hc2 & Hh2).
  rewrite Hc1, Hc2, Hh1, Hh2, !frida_flag_aux, Hp.
  rewrite !existsb_app, filter_app, length_app.
  repeat split.
  - rewrite !analyzeProcMaps_fold, Hp. unfold scan_lines. rewrite fold_left_app.
    destruct (scan_lines_grows more
                (scan_lines (processed_lines maps1) MapsAnalysis_default))
      as (extra & Hx & _).
    now exists extra.
  - intros ->. reflexivity.
  - intros ->. reflexivity.
  - lia.
Qed.

Lemma longer_listing_extends_witness :
  exists extra,
    suspiciousModules (analyzeProcMaps (Some repeated_modules)) =
    (suspiciousModules
       (analyzeProcMaps
          (Some "7a8f000-7a90000 r-xp 00000000 fd:00 11 /data/local/tmp/frida-agent.so"))
     ++ extra)%list.
Proof.
  refine (proj1 (longer_listing_extends
            (Some "7a8f000-7a90000 r-xp 00000000 fd:00 11 /data/local/tmp/frida-agent.so")
            (Some repeated_modules)
            (List.tl (lines_of repeated_modules)) _)).
  vm_compute. reflexivity.
Defined.

Lemma first_occurrences_length (xs : list string) :
  (List.length (first_occurrences xs) <= List.length xs)%nat.
Proof.
  induction xs as [|x xs IH]; cbn [first_occurrences List.length]; [lia|].
  pose proof (filter_length_le (fun y => negb (String.eqb y x))
                (first_occurrences xs)). lia.
Qed.

Lemma offered_modules_length (lines : list string) :
  (List.length (offered_modules lines)
   <= List.length (filter (fun l => has_keyword (Str.lower l)) lines))%nat.
Proof.
  induction lines as [|line lines IH]; [cbn; lia|].
  change (offered_modules (line :: lines))
    with ((match offered_module line with Some m => [m] | None => [] end)
          ++ offered_modules lines)%list.
  rewrite length_app. cbn [filter]. unfold offered_module.
  destruct (has_keyword (Str.lower line)); cbn [List.length]; [|lia].
  destruct (module_of line) as [m|]; [destruct (Str.is_empty m)|];
    cbn [List.length]; lia.
Qed.

(** X9: a line adds at most one name, so there are never more suspicious
    modules than processed lines that hold a keyword, and never more than
    [MAX_LINES]. *)
Theorem suspicious_modules_bounded (maps : option string) :
  (List.length (suspiciousModules (analyzeProcMaps maps))
   <= List.length (filter (fun l => has_keyword (Str.lower l)) (processed_lines maps)))%nat /\
  Z.of_nat (List.length (suspiciousModules (analyzeProcMaps maps))) <= MAX_LINES.
Proof.
  rewrite modules_first_occurrences.
  pose proof (first_occurrences_length (offered_modules (processed_lines maps))) as H1.
  pose proof (offered_modules_length (processed_lines maps)) as H2.
  pose proof (filter_length_le (fun l => has_keyword (Str.lower l))
                (processed_lines maps)) as H3.
  pose proof (firstn_le_length (Z.to_nat MAX_LINES) (lines_in maps)) as H4.
  fold (processed_lines maps) in H4.
  split; [lia|]. unfold MAX_LINES in *. lia.
Qed.

(** ** FdScanner: the link buffer and the order of the scan *)

Lemma substr_to_prefix (s : string) (n : nat) :
  (String.length (Str.substr_to s n) <= n)%nat /\
  exists rest, s = Str.substr_to s n ++ rest.
Proof.
  revert s. induction n as [|n IH]; intros s.
  - destruct s as [|y s]; split; try (cbn; lia);
      [now exists EmptyString|now exists (String y s)].
  - destruct s as [|y s]; [split; [cbn; lia|now exists EmptyString]|].
    cbn [Str.substr_to String.length]. destruct (IH s) as (H & rest & E).
    split; [lia|]. exists rest. cbn [append]. now rewrite <- E.
Qed.

Lemma c_string_prefix (buf : string) :
  (String.length (c_string buf) <= String.length buf)%nat /\
  Str.find_char (c_string buf) zero = None /\
  exists rest, buf = c_string buf ++ rest.
Proof.
  induction buf as [|y buf (H1 & H2 & rest & E)]; cbn [c_string].
  - split; [cbn; lia|]. split; [reflexivity|]. now exists EmptyString.
  - destruct (Ascii.eqb y zero) eqn:Ey.
    + split; [cbn; lia|]. split; [reflexivity|]. now exists (String y buf).
    + cbn [String.length Str.find_char]. rewrite Ey, H2.
      split; [lia|]. split; [reflexivity|].
      exists rest. cbn [append]. now rewrite <- E.
Qed.

(** X10: the link target the scan works on is never longer than
    [PATH_MAX - 1] bytes, so the terminating NUL the code writes behind it
    stays inside the [PATH_MAX]-byte buffer; it holds no NUL, and it is an
    initial part of what the link really points to. *)
Theorem link_target_bounded (link : string -> option string) (d_name target : string) :
  link_target link d_name = Some target ->
  (String.length target < PATH_MAX)%nat /\
  Str.find_char target zero = None /\
  exists full rest,
    link ("/proc/self/fd/" ++ d_name) = Some full /\ full = target ++ rest.
Proof.
  unfold link_target, readlink.
  assert (Hn : (PATH_MAX - 1 < PATH_MAX)%nat)
    by (apply Nat.ltb_lt; vm_compute; reflexivity).
  remember (PATH_MAX - 1)%nat as n eqn:En. clear En.
  destruct (link ("/proc/self/fd/" ++ d_name)) as [full|]; [|discriminate].
  unfold option_map.
  destruct (0 <? _); [|discriminate]. intros [= <-].
  destruct (substr_to_prefix full n) as (H1 & r1 & E1).
  destruct (c_string_prefix (Str.substr_to full n)) as (H2 & H3 & r2 & E2).
  split; [|split; [assumption|]].
  - eapply Nat.le_lt_trans; [exact H2|].
    eapply Nat.le_lt_trans; [exact H1|assumption].
  - exists full, (r2 ++ r1). split; [reflexivity|].
    pose proof (append_assoc (c_string (Str.substr_to full n)) r2 r1) as A.
    congruence.
Qed.

Lemma link_target_bounded_witness :
  Str.find_char "/data/local/tmp/re.frida.server" zero = None.
Proof.
  exact (proj1 (proj2 (link_target_bounded frida_server_fd "7"
                         "/data/local/tmp/re.frida.server" eq_refl))).
Defined.

Lemma checkFd_existsb (link : string -> option string) (dir : option (list string)) :
  checkFdForFrida link dir = existsb (fd_hit link) (non_dot (capped_entries dir)).
Proof.
  pose proof (scanFd_outcome link dir) as H.
  unfold fd_outcome in H. rewrite Z.sub_0_r in H.
  fold (capped_entries dir) in H. unfold checkFdForFrida.
  destruct (found (scanFd link dir)).
  - destruct H as (pre & d & post & Hs & Hd & Hh & _).
    symmetry. apply existsb_exists. exists d. split; [|assumption].
    unfold non_dot. rewrite Hs. apply filter_In. split.
    + apply in_or_app. right. now left.
    + now rewrite Hd.
  - destruct H as (_ & Hall & _).
    symmetry. apply not_true_is_false. intros He.
    apply existsb_exists in He. destruct He as (d & Hin & Hh).
    apply Hall in Hin. congruence.
Qed.

(** X11: names that [readdir] returns later cannot hide a match: if the scan
    of a directory answers [true], so does the scan of any directory that
    starts with the same names. *)
Theorem fd_match_survives_more_entries (link : string -> option string)
    (dir more : list string) :
  checkFdForFrida link (Some dir) = true ->
  checkFdForFrida link (Some (dir ++ more)%list) = true.
Proof.
  rewrite !checkFd_existsb. unfold capped_entries, non_dot, entries_in.
  rewrite firstn_app, filter_app, existsb_app. intros ->. reflexivity.
Qed.

Lemma fd_match_survives_more_entries_witness :
  checkFdForFrida frida_server_fd (Some (fd_names ++ ["13"; "14"])%list) = true.
Proof.
  apply (fd_match_survives_more_entries frida_server_fd fd_names ["13"; "14"]).
  reflexivity.
Defined.

(** X12: the scan never reads the link of an entry whose name starts with a
    dot, and it reads the other entries in directory order without leaving
    one out: the entries read are an initial part of the non-dot names among
    the first [MAX_FD_CHECK]. *)
Theorem fd_examined_in_order (link : string -> option string)
    (dir : option (list string)) :
  (forall d, In d (examined (scanFd link dir)) -> dot_entry d = false) /\
  exists rest,
    non_dot (capped_entries dir) = (examined (scanFd link dir) ++ rest)%list.
Proof.
  assert (Hpre : exists rest,
    non_dot (capped_entries dir) = (examined (scanFd link dir) ++ rest)%list).
  { pose proof (scanFd_outcome link dir) as H.
    unfold fd_outcome in H. rewrite Z.sub_0_r in H.
    fold (capped_entries dir) in H.
    destruct (found (scanFd link dir)).
    - destruct H as (pre & d & post & Hs & Hd & _ & _ & Hex & _).
      exists (non_dot post). rewrite Hs, Hex. unfold non_dot.
      rewrite filter_app. cbn [filter]. rewrite Hd. cbn [negb].
      now rewrite <- app_assoc.
    - destruct H as (Hex & _). exists []. now rewrite Hex, app_nil_r. }
  split; [|exact Hpre].
  destruct Hpre as (rest & E). intros d Hin.
  assert (Hin' : In d (non_dot (capped_entries dir)))
    by (rewrite E; apply in_or_app; now left).
  unfold non_dot in Hin'. apply filter_In in Hin'.
  now apply negb_true_iff.
Qed.

(** ** [escapeJsonString] and [vectorToJsonArray] on their own *)

Lemma escape_length (s : string) :
  (String.length s <= String.length (escapeJsonString s) <= 2 * String.length s)%nat.
Proof.
  induction s as [|c s IH]; cbn [escapeJsonString String.length]; [lia|].
  destruct (_ || _); cbn [String.length]; lia.
Qed.

(** X13: the escaped form of a string is at least as long as the string and
    at most twice as long; it equals the string exactly when the string holds
    neither a quote nor a backslash; and escaping goes through concatenation. *)
Theorem escape_shape (s : string) :
  (String.length s <= String.length (escapeJsonString s) <= 2 * String.length s)%nat /\
  (escapeJsonString s = s <->
   Str.find_char s dquote = None /\ Str.find_char s backslash = None) /\
  (forall t, escapeJsonString (s ++ t) = escapeJsonString s ++ escapeJsonString t).
Proof.
  split; [apply escape_length|]. split; [|apply escapeJsonString_append].
  induction s as [|c s IH]; cbn [escapeJsonString Str.find_char]; [tauto|].
  pose proof (escape_length s) as Hl.
  destruct (Ascii.eqb c dquote) eqn:Eq; cbn [orb].
  - split; [|intros [H _]; discriminate H].
    intros [= _ H]. apply (f_equal String.length) in H.
    cbn [String.length] in H. lia.
  - destruct (Ascii.eqb c backslash) eqn:Eb.
    + split; [|intros [_ H]; discriminate H].
      intros [= _ H]. apply (f_equal String.length) in H.
      cbn [String.length] in H. lia.
    + destruct (Str.find_char s dquote), (Str.find_char s backslash);
        cbn [option_map]; split;
        try (intros [H1 H2]; discriminate);
        try (intros [= H]; apply IH in H; destruct H; discriminate).
      * intros _. now split.
      * intros _. f_equal. now apply IH.
Qed.

(** X14: the escaped form of a string never contains an unescaped quote:
    scanned from the left, every quote in it is announced by a backslash,
    every backslash announces a quote or a backslash, and none is left
    dangling at the end, where it would swallow the closing quote. *)
Theorem escape_well_escaped (s : string) :
  scan_escapes (escapeJsonString s) = WellEscaped.
Proof.
  induction s as [|c s IH]; cbn [escapeJsonString]; [reflexivity|].
  destruct (Ascii.eqb c dquote) eqn:Hq; cbn [orb].
  - cbn [scan_escapes]. rewrite Ascii.eqb_refl, Hq. cbn [orb]. exact IH.
  - destruct (Ascii.eqb c backslash) eqn:Hb.
    + cbn [scan_escapes]. rewrite Ascii.eqb_refl, Hq, Hb. cbn [orb]. exact IH.
    + cbn [scan_escapes]. rewrite Hq, Hb. exact IH.
Qed.

(** An escaper that leaves a character out shows up in the scan. *)
Example scan_escapes_tells :
  scan_escapes (String dquote "x") = BareQuote /\
  scan_escapes (String backslash "x") = BadEscape /\
  scan_escapes (String backslash EmptyString) = DanglingBackslash.
Proof. repeat split. Qed.

(** X15: different strings have different escaped forms, and different lists
    of strings have different array texts. *)
Theorem serialization_injective :
  (forall s1 s2, escapeJsonString s1 = escapeJsonString s2 -> s1 = s2) /\
  (forall v1 v2, vectorToJsonArray v1 = vectorToJsonArray v2 -> v1 = v2).
Proof.
  split.
  - intros s1 s2 H. apply (f_equal Json.unescape) in H.
    rewrite !unescape_escape in H. now injection H.
  - intros v1 v2 H.
    pose proof (read_value_array v1 EmptyString) as H1.
    pose proof (read_value_array v2 EmptyString) as H2.
    rewrite H in H1. rewrite H1 in H2. now injection H2.
Qed.

Lemma serialization_injective_witness :
  vectorToJsonArray ["a,b"] <> vectorToJsonArray ["a"; "b"].
Proof.
  intros H. apply (proj2 serialization_injective) in H. discriminate H.
Defined.

(** ** The report as a whole *)

(** X16: two calls whose elapsed times are written as numbers return the same
    text only if all eight reported values agree. *)
Theorem report_injective (p q : Platform) :
  Json.is_number (elapsed_text p) = true ->
  Json.is_number (elapsed_text q) = true ->
  collectNativeSignals p = collectNativeSignals q ->
  report_of p = report_of q.
Proof.
  intros Hp Hq H.
  pose proof (collect_members p Hp) as Mp.
  pose proof (collect_members q Hq) as Mq.
  rewrite H, Mq in Mp.
  apply (f_equal (fun o => match o with
                           | Some ms => Report.of_members ms
                           | None => None
                           end)) in Mp.
  cbv beta iota in Mp. rewrite !of_members_of in Mp.
  congruence.
Qed.

Lemma report_injective_witness : report_of demo = report_of demo2.
Proof. exact (report_injective demo demo2 eq_refl eq_refl eq_refl). Defined.

Lemma quiet_listing_default (maps : option string) :
  (forall line, In line (lines_in maps) ->
     rwx_line line = false /\ has_keyword (Str.lower line) = false) ->
  analyzeProcMaps maps = MapsAnalysis_default.
Proof.
  intros H.
  assert (Hp : forall line, In line (processed_lines maps) ->
             rwx_line line = false /\ has_keyword (Str.lower line) = false)
    by (intros line Hl; apply H; now apply processed_lines_incl).
  destruct (rwx_counts_marked_lines_aux maps) as [Hc Hh].
  destruct (scan_lines_quiet (processed_lines maps) MapsAnalysis_default)
    as [Hm Hf]; [intros line Hl; now apply Hp|].
  rewrite <- analyzeProcMaps_fold in Hm, Hf.
  assert (Hnone : existsb rwx_line (processed_lines maps) = false).
  { apply not_true_is_false. intros He. apply existsb_exists in He.
    destruct He as (line & Hl & Hr). destruct (Hp line Hl). congruence. }
  assert (Hzero : filter rwx_line (processed_lines maps) = []).
  { destruct (filter rwx_line (processed_lines maps)) as [|x l] eqn:E; [reflexivity|].
    assert (Hx : In x (filter rwx_line (processed_lines maps)))
      by (rewrite E; now left).
    apply filter_In in Hx. destruct Hx as [Hl Hr]. destruct (Hp x Hl). congruence. }
  rewrite Hzero in Hc. rewrite Hnone in Hh.
  destruct (analyzeProcMaps maps) as [c h f m]. cbn in *. now subst.
Qed.

(** X17: when no line of the listing carries the writable-executable marker
    or a keyword, the descriptor scan finds nothing and [dladdr] gives no
    module path, the report is the object of the default values around the
    elapsed time; in particular a platform on which nothing can be opened
    and one whose listing and directory are empty give the same text. *)
Theorem quiet_platform_report (p : Platform) :
  (forall line, In line (lines_in (proc_maps p)) ->
     rwx_line line = false /\ has_keyword (Str.lower line) = false) ->
  checkFdForFrida (fd_link p) (proc_fd p) = false ->
  dladdr_getpid p = None \/ dladdr_getpid p = Some None ->
  collectNativeSignals p =
    "{" ++ key "rwxSegments" ++ "0,"
    ++ key "hasRwx" ++ "false,"
    ++ key "fridaLibLoaded" ++ "false,"
    ++ key "fdFrida" ++ "false,"
    ++ key "libcGetpidSo" ++ quoted EmptyString ++ ","
    ++ key "libcGetpidUnexpected" ++ "false,"
    ++ key "nativeTimeMs" ++ elapsed_text p ++ ","
    ++ key "suspiciousModules" ++ "[]}".
Proof.
  intros Hmaps Hfd Hdl. unfold collectNativeSignals.
  rewrite (quiet_listing_default _ Hmaps), Hfd.
  destruct Hdl as [-> | ->]; reflexivity.
Qed.

Lemma quiet_platform_report_witness :
  collectNativeSignals (bare plain_fd "0.5") =
  collectNativeSignals (blind plain_fd "0.5").
Proof.
  rewrite (quiet_platform_report (bare plain_fd "0.5"));
    [|intros line []|reflexivity|now right].
  rewrite (quiet_platform_report (blind plain_fd "0.5"));
    [reflexivity|intros line []|reflexivity|now left].
Defined.

(** ** SymbolResolver: what is accepted *)

(** X18: a module path that contains [/system/lib], [/apex/] or [libc.so]
    anywhere is recorded as it is and never marked unexpected, whatever
    stands before and after the fragment. *)
Theorem libc_fragment_anywhere (frag a b : string) :
  In frag libc_fragments ->
  checkLibcSymbol (Some (Some (a ++ frag ++ b))) = mkLibcCheck (a ++ frag ++ b) false.
Proof.
  intros Hin.
  assert (Hf : Str.found (Str.find (a ++ frag ++ b) frag) = true)
    by (apply find_spec; eauto).
  unfold checkLibcSymbol.
  destruct Hin as [<-|[<-|[<-|[]]]]; rewrite Hf; cbn [negb andb];
    now rewrite ?andb_false_r.
Qed.

Lemma libc_fragment_anywhere_witness :
  unexpected (checkLibcSymbol (Some (Some ("/data/local/tmp/" ++ "libc.so" ++ ".hook")))) = false.
Proof.
  rewrite (libc_fragment_anywhere "libc.so" "/data/local/tmp/" ".hook").
  - reflexivity.
  - right. right. now left.
Defined.


(** * The descriptor scan against its keywords *)

Lemma frida_target_iff (target : string) :
  frida_target target = true <->
  exists kw a b, In kw fd_keywords /\ Str.lower target = a ++ kw ++ b.
Proof.
  unfold frida_target, fd_keywords. rewrite !orb_true_iff, !find_spec. split.
  - intros [[(a & b & E)|(a & b & E)]|(a & b & E)].
    + exists "frida", a, b. split; [now left|assumption].
    + exists "gadget", a, b. split; [right; now left|assumption].
    + exists "gum-js", a, b. split; [right; right; now left|assumption].
  - intros (kw & a & b & [<-|[<-|[<-|[]]]] & E); eauto.
Qed.

Lemma fd_hit_iff (link : string -> option string) (d_name : string) :
  fd_hit link d_name = true <-> target_matches link d_name.
Proof.
  unfold fd_hit, target_matches. split.
  - destruct (link_target link d_name) as [target|]; [|discriminate].
    intros H. apply frida_target_iff in H. destruct H as (kw & a & b & Hk & E).
    now exists target, kw, a, b.
  - intros (target & kw & a & b & -> & Hk & E).
    apply frida_target_iff. now exists kw, a, b.
Qed.

Lemma fd_miss_iff (link : string -> option string) (d_name : string) :
  fd_hit link d_name = false <-> ~ target_matches link d_name.
Proof.
  rewrite <- fd_hit_iff. destruct (fd_hit link d_name); split; congruence.
Qed.

(** C6: [checkFdForFrida] answers [true] exactly when one of the entries it
    examined has a link whose target, lower-cased, contains [frida],
    [gadget] or [gum-js].  When it answers [true] the entry that matched is
    the last one it examined and the first that matches among the first
    [MAX_FD_CHECK] names, dot entries left out: the names after it were never
    read.  When it answers [false] it examined all non-dot names within the
    cap and none matched.  The letter case of the target does not matter: a
    non-dot entry within the cap whose target contains a text that
    lower-cases to a keyword makes the answer [true]. *)
Theorem fd_scan_first_match (link : string -> option string)
    (dir : option (list string)) :
  (checkFdForFrida link dir = true <->
   exists d, In d (examined (scanFd link dir)) /\ target_matches link d) /\
  (checkFdForFrida link dir = true ->
   exists pre d post,
     capped_entries dir = (pre ++ d :: post)%list /\
     dot_entry d = false /\ target_matches link d /\
     (forall d', In d' (non_dot pre) -> ~ target_matches link d') /\
     examined (scanFd link dir) = (non_dot pre ++ [d])%list /\
     count (scanFd link dir) = Z.of_nat (List.length pre) + 1) /\
  (checkFdForFrida link dir = false ->
   examined (scanFd link dir) = non_dot (capped_entries dir) /\
   forall d, In d (examined (scanFd link dir)) -> ~ target_matches link d) /\
  (forall d kw a k b,
     In d (non_dot (capped_entries dir)) ->
     In kw fd_keywords ->
     Str.lower k = kw ->
     link_target link d = Some (a ++ k ++ b) ->
     checkFdForFrida link dir = true).
Proof.
  destruct (fd_scan_shape link dir) as (H1 & H2 & H3 & H4).
  split; [|split; [|split]].
  - rewrite H1. split; intros (d & Hin & Hh); exists d; split; try assumption;
      now apply fd_hit_iff.
  - intros Ht. destruct (H3 Ht) as (pre & d & post & Hs & Hd & Hh & Hpre & Hex & Hc).
    exists pre, d, post. repeat split; try assumption.
    + now apply fd_hit_iff.
    + intros d' Hin. apply fd_miss_iff. now apply Hpre.
  - intros Hf. destruct (H4 Hf) as (Hex & Hall). split; [assumption|].
    intros d Hin. apply fd_miss_iff. now apply Hall.
  - intros d kw a k b Hin Hkw Hk Ht. rewrite H2. apply existsb_exists.
    exists d. split; [assumption|]. apply fd_hit_iff.
    exists (a ++ k ++ b), kw, (Str.lower a), (Str.lower b).
    split; [assumption|]. split; [assumption|].
    now rewrite !lower_append, Hk.
Qed.

Lemma fd_scan_first_match_witness :
  checkFdForFrida mixed_case_fd (Some fd_names) = true /\
  examined (scanFd mixed_case_fd (Some fd_names)) = ["0"; "7"] /\
  checkFdForFrida plain_fd (Some fd_names) = false /\
  examined (scanFd plain_fd (Some fd_names)) = ["0"; "7"; "9"; "12"].
Proof.
  destruct (fd_scan_first_match mixed_case_fd (Some fd_names)) as (_ & _ & _ & H1).
  destruct (fd_scan_first_match plain_fd (Some fd_names)) as (_ & _ & H2 & _).
  split.
  - apply (H1 "7" "frida" "/data/local/tmp/Re." "FRIDA" ".Server").
    + vm_compute. right. now left.
    + now left.
    + reflexivity.
    + reflexivity.
  - split; [reflexivity|]. split; [reflexivity|].
    exact (proj1 (H2 eq_refl)).
Defined.

(** Each of the three keywords, in mixed case, is found; [gum_js], which
    only the mapping scan knows, is not. *)
Example fd_keywords_example :
  frida_target "/data/local/tmp/Re.FRIDA.Server" = true /\
  frida_target "/data/app/lib/libGADGET.so" = true /\
  frida_target "/data/app/lib/libGum-JS.so" = true /\
  frida_target "/data/app/lib/libgum_js.so" = false /\
  frida_target "/system/lib64/libc.so" = false.
Proof. repeat split. Qed.

(** * The report as JSON *)

Lemma read_strict_string_spec (s : string) :
  read_strict_string s =
  match Json.read_string s with
  | Some (v, r) => if clean v then Some (v, r) else None
  | None => None
  end.
Proof.
  remember (String.length s) as n eqn:Hn.
  assert (Hle : (String.length s <= n)%nat) by lia. clear Hn.
  revert s Hle. induction n as [|n IH]; intros s Hle.
  - destruct s; [reflexivity|cbn in Hle; lia].
  - destruct s as [|c s]; [reflexivity|].
    cbn [String.length] in Hle.
    cbn [read_strict_string Json.read_string].
    destruct (Ascii.eqb c dquote) eqn:Hq; [reflexivity|].
    destruct (Ascii.eqb c backslash) eqn:Hb.
    + apply Ascii.eqb_eq in Hb. subst c.
      change (control_char backslash) with false. cbv iota.
      destruct s as [|d s]; [reflexivity|]. cbn [String.length] in Hle.
      destruct (Ascii.eqb d dquote || Ascii.eqb d backslash) eqn:Hd; [|reflexivity].
      rewrite (IH s) by lia.
      destruct (Json.read_string s) as [[v r]|]; [|reflexivity].
      assert (Hc : control_char d = false).
      { apply orb_true_iff in Hd. destruct Hd as [Hd|Hd];
          apply Ascii.eqb_eq in Hd; subst d; reflexivity. }
      unfold clean. cbn [all_chars]. rewrite Hc. cbn [negb andb].
      fold (clean v). now destruct (clean v).
    + rewrite (IH s) by lia.
      destruct (control_char c) eqn:Hc.
      * destruct (Json.read_string s) as [[v r]|]; [|reflexivity].
        unfold clean. cbn [all_chars]. now rewrite Hc.
      * destruct (Json.read_string s) as [[v r]|]; [|reflexivity].
        unfold clean. cbn [all_chars]. rewrite Hc. cbn [negb andb].
        fold (clean v). now destruct (clean v).
Qed.

(** When the module path and the module names hold no control character
    (and the elapsed time is written as a number) the report is a JSON
    object with the eight members of the contract. *)
Lemma report_is_json_when_clean (p : Platform) :
  Json.is_number (elapsed_text p) = true ->
  clean (soPath (checkLibcSymbol (dladdr_getpid p))) = true ->
  forallb clean (suspiciousModules (analyzeProcMaps (proc_maps p))) = true ->
  read_json_object (collectNativeSignals p) = Some (members_of (report_of p)).
Proof.
  intros Ht Hso Hmods. unfold read_json_object.
  rewrite (collect_members p Ht).
  assert (E : forallb clean_member (members_of (report_of p)) = true).
  { unfold members_of, report_of.
    cbn [forallb clean_member clean_value fst snd
         Report.rwxSegments Report.hasRwx Report.fridaLibLoaded Report.fdFrida
         Report.libcGetpidSo Report.libcGetpidUnexpected Report.nativeTimeMs
         Report.suspiciousModules].
    unfold clean_member. cbn [fst snd clean_value].
    rewrite Hso, Hmods.
    change (clean "rwxSegments") with true.
    change (clean "hasRwx") with true.
    change (clean "fridaLibLoaded") with true.
    change (clean "fdFrida") with true.
    change (clean "libcGetpidSo") with true.
    change (clean "libcGetpidUnexpected") with true.
    change (clean "nativeTimeMs") with true.
    change (clean "suspiciousModules") with true.
    reflexivity. }
  now rewrite E.
Qed.

(** C1: the text is not always a JSON object.  A mapped file whose name
    holds a TAB is a suspicious module like any other; [escapeJsonString]
    passes the TAB on as it is, so the report carries a raw control
    character inside a string and is refused as JSON, although its eight
    members are all there. *)
Theorem report_with_control_char :
  suspiciousModules (analyzeProcMaps (proc_maps tab_platform)) =
    ["frida" ++ String tab "agent.so"] /\
  escapeJsonString ("frida" ++ String tab "agent.so") =
    "frida" ++ String tab "agent.so" /\
  control_char tab = true /\
  collectNativeSignals tab_platform =
    "{" ++ key "rwxSegments" ++ "0,"
    ++ key "hasRwx" ++ "false,"
    ++ key "fridaLibLoaded" ++ "true,"
    ++ key "fdFrida" ++ "false,"
    ++ key "libcGetpidSo"
    ++ quoted "/apex/com.android.runtime/lib64/bionic/libc.so" ++ ","
    ++ key "libcGetpidUnexpected" ++ "false,"
    ++ key "nativeTimeMs" ++ "0.123,"
    ++ key "suspiciousModules"
    ++ "[" ++ quoted ("frida" ++ String tab "agent.so") ++ "]}" /\
  read_strict_string ("frida" ++ String tab ("agent.so" ++ String dquote "]}")) = None /\
  read_json_object (collectNativeSignals tab_platform) = None /\
  option_map (map fst) (Json.read_object (collectNativeSignals tab_platform)) =
    Some Report.field_names.
Proof. repeat split; vm_compute; reflexivity. Qed.
